(** * course-selling: credential and access-control queries

    A shallow embedding of the backend's query layer
    ([auth.util.ts], [auth.queries.ts], the course queries and the schema)
    together with the properties its specification states about it.

    JavaScript values that matter at run time are kept as the code has them:
    result objects are records with optional fields, rows handed back to a
    caller are objects (finite maps from property names), strings are
    [string], bytes are [Byte.byte].  Effects (the database, the random
    source, the clock, thrown errors) are threaded through a small
    state-and-exception monad. *)

From Stdlib Require Import ZArith NArith Ascii String List Lia Bool.
From stdpp Require Import base option list strings gmap.

Local Open Scope string_scope.
Local Open Scope list_scope.

Set Default Proof Using "Type".

(* ===================================================================== *)
(** * JavaScript run-time notions *)
(* ===================================================================== *)

(** A thrown [Error] object: what [catch (error)] binds. *)
Record Exn := { exn_name : string; exn_message : string }.

(** [String(error)] is [Error.prototype.toString]: the name, a colon and the
    message, or just one of the two when the other is empty. *)
Definition String_of_error (e : Exn) : string :=
  if String.eqb (exn_name e) "" then exn_message e
  else if String.eqb (exn_message e) "" then exn_name e
  else exn_name e +:+ ": " +:+ exn_message e.

(** [!s] on a string: only the empty string is falsy. *)
Definition not_string (s : string) : bool := String.eqb s "".

(** [!x] on a value that is an object or [undefined]. *)
Definition not_object {A} (x : option A) : bool :=
  match x with Some _ => false | None => true end.

(** [!b] on a boolean that may be [undefined]. *)
Definition not_boolean (x : option bool) : bool :=
  match x with Some b => negb b | None => true end.

(** The values stored in the properties of a row object. *)
Inductive JsVal :=
| JString (s : string)
| JBoolean (b : bool)
| JDate (t : Z)
| JNumber (n : Z)
| JNull.

(** A plain object; a row of a table is one, keyed by the column's property
    name in the schema. *)
Abbreviation JsObject := (gmap string JsVal).

(** [const { k1: _, k2: __, ...rest } = o]: the rest object holds every own
    property of [o] but the ones picked out. *)
Definition rest_without (ks : list string) (o : JsObject) : JsObject :=
  foldr (fun k acc => delete k acc) o ks.

(** [results.types.ts]
    [type DbResult<T> = { success: boolean; data?: T; error?: string; count?: number }] *)
Record DbResult (T : Type) := {
  success : bool;
  data : option T;
  error : option string;
  count : option Z }.
Arguments success {T} _.
Arguments data {T} _.
Arguments error {T} _.
Arguments count {T} _.

(** [{ success: true, data: d }] where [d] may itself be [undefined]. *)
Definition succeed {T} (d : option T) : DbResult T :=
  {| success := true; data := d; error := None; count := None |}.

(** [{ success: false, error: msg }] *)
Definition fail {T} (msg : string) : DbResult T :=
  {| success := false; data := None; error := Some msg; count := None |}.

(* ===================================================================== *)
(** * Schema *)
(* ===================================================================== *)

(** [pgEnum("user_role", ["admin", "consumer"])] *)
Inductive user_role_enum := admin | consumer.

(** [pgEnum("purchase_status", ["pending", "completed", "refunded"])] *)
Inductive purchase_status_enum := pending | completed | refunded.

Definition user_role_text (r : user_role_enum) : string :=
  match r with admin => "admin" | consumer => "consumer" end.

Definition user_role_of_text (s : string) : option user_role_enum :=
  if String.eqb s "admin" then Some admin
  else if String.eqb s "consumer" then Some consumer
  else None.

(** [users_table] *)
Module User.
Record t := {
  id : string;
  full_name : string;
  email : string;
  hashedPassword : string;
  saltPassword : string;
  created_at : Z;
  updated_at : Z;
  role : user_role_enum;
  is_active : bool }.

(** The row as the driver hands it to the application: one property per
    column, named as in the table definition. *)
Definition to_object (u : t) : JsObject :=
  <["id" := JString (id u)]>
  (<["full_name" := JString (full_name u)]>
  (<["email" := JString (email u)]>
  (<["hashedPassword" := JString (hashedPassword u)]>
  (<["saltPassword" := JString (saltPassword u)]>
  (<["created_at" := JDate (created_at u)]>
  (<["updated_at" := JDate (updated_at u)]>
  (<["role" := JString (user_role_text (role u))]>
  (<["is_active" := JBoolean (is_active u)]> ∅)))))))).
End User.

(** [courses_table] *)
Module Course.
Record t := {
  id : string;
  admin_id : option string;
  course_name : string;
  price : Z;                 (* numeric(10,2), in hundredths *)
  created_at : Z;
  updated_at : Z;
  is_deleted : bool }.
End Course.

(** [course_content_table] *)
Module Content.
Record t := {
  id : string;
  course_id : option string;
  title : string;
  description : option string;
  content_type : string;
  content_url : string;
  order : option Z;
  created_at : Z;
  updated_at : Z;
  is_deleted : bool }.
End Content.

(** [purchase_history_table] *)
Module Purchase.
Record t := {
  id : string;
  user_id : option string;
  course_id : option string;
  purchase_date : Z;
  updated_at : Z;
  status : purchase_status_enum;
  payment_method : string;
  amount : Z }.
End Purchase.

(** [course_enrollments_table] *)
Module Enrollment.
Record t := {
  id : string;
  user_id : string;
  course_id : string;
  enrolled_at : Z;
  has_access : bool }.
End Enrollment.

(** The database: each table is the list of its rows, in the order a scan
    returns them. *)
Record Tables := {
  users : list User.t;
  courses : list Course.t;
  course_content : list Content.t;
  purchase_history : list Purchase.t;
  course_enrollments : list Enrollment.t }.

Definition with_users (us : list User.t) (t : Tables) : Tables :=
  {| users := us; courses := courses t; course_content := course_content t;
     purchase_history := purchase_history t;
     course_enrollments := course_enrollments t |}.

(* ===================================================================== *)
(** * The world a request runs in *)
(* ===================================================================== *)

(** The operating system's random source: an unbounded supply of bytes and
    the number already handed out. *)
Record Rng := { entropy : nat -> Byte.byte; drawn : nat }.

(** What a request does that an observer of the server could count. *)
Inductive Event :=
| EvRandomBytes (n : nat)
| EvPbkdf2 (password salt : string) (iterations keylen : N) (digest : string)
| EvSelect (table : string)
| EvInsert (table : string).

Record World := {
  tables : Tables;
  (** when set, the connection is down and every query rejects with it *)
  offline : option Exn;
  (** writes of other requests; one of them commits each time this request
      yields on a query *)
  concurrent : list (Tables -> Tables);
  (** the database's [NOW()] *)
  now : Z;
  rng : Rng;
  (** events so far, most recent first *)
  trace : list Event }.

Definition set_tables (t : Tables) (w : World) : World :=
  {| tables := t; offline := offline w; concurrent := concurrent w;
     now := now w; rng := rng w; trace := trace w |}.

Definition set_concurrent (c : list (Tables -> Tables)) (w : World) : World :=
  {| tables := tables w; offline := offline w; concurrent := c;
     now := now w; rng := rng w; trace := trace w |}.

Definition set_rng (g : Rng) (w : World) : World :=
  {| tables := tables w; offline := offline w; concurrent := concurrent w;
     now := now w; rng := g; trace := trace w |}.

Definition log (ev : Event) (w : World) : World :=
  {| tables := tables w; offline := offline w; concurrent := concurrent w;
     now := now w; rng := rng w; trace := ev :: trace w |}.

(** A call either returns or throws. *)
Inductive Outcome (A : Type) :=
| Returned (a : A)
| Thrown (e : Exn).
Arguments Returned {A} a.
Arguments Thrown {A} e.

(** Effectful code: a function of the world.  An [async] function whose
    awaited promise rejects behaves as a function that throws. *)
Definition Eff (A : Type) : Type := World -> Outcome A * World.

Definition ret {A} (a : A) : Eff A := fun w => (Returned a, w).

Definition bind {A B} (c : Eff A) (k : A -> Eff B) : Eff B :=
  fun w => match c w with
           | (Returned a, w') => k a w'
           | (Thrown e, w') => (Thrown e, w')
           end.

Definition throw {A} (e : Exn) : Eff A := fun w => (Thrown e, w).

(** [try { body } catch (error) { handler }] *)
Definition try_catch {A} (body : Eff A) (handler : Exn -> Eff A) : Eff A :=
  fun w => match body w with
           | (Returned a, w') => (Returned a, w')
           | (Thrown e, w') => handler e w'
           end.

Notation "'await' x ':=' c1 'in' c2" := (bind c1 (fun x => c2))
  (at level 10, x name, c1 at level 100, c2 at level 200).

(** ** The database client *)

(** Yielding on a query lets one pending write of another request commit. *)
Definition yield (w : World) : World :=
  match concurrent w with
  | [] => w
  | t :: rest => set_concurrent rest (set_tables (t (tables w)) w)
  end.

(** The error the server raises on a unique-index conflict; the application
    sees it only as a thrown [Error] with this message. *)
Definition unique_violation (constraint : string) : Exn :=
  {| exn_name := "error";
     exn_message :=
       "duplicate key value violates unique constraint " +:+ constraint |}.

(** [db.select().from(tbl).where(p)]: the matching rows in scan order. *)
Definition db_select {R} (name : string) (tbl : Tables -> list R)
    (where_ : R -> bool) : Eff (list R) :=
  fun w =>
    let w1 := log (EvSelect name) (yield w) in
    match offline w1 with
    | Some e => (Thrown e, w1)
    | None => (Returned (List.filter where_ (tbl (tables w1))), w1)
    end.

(** [db.query.tbl.findFirst({ where: p })]: the first matching row or
    [undefined]. *)
Definition db_findFirst {R} (name : string) (tbl : Tables -> list R)
    (where_ : R -> bool) : Eff (option R) :=
  await rows := db_select name tbl where_ in ret (head rows).

(** The values of [db.insert(users_table).values({...})]; the two timestamp
    columns are left to their [NOW()] defaults. *)
Module NewUser.
Record t := {
  id : string;
  full_name : string;
  email : string;
  hashedPassword : string;
  saltPassword : string;
  role : user_role_enum;
  is_active : bool }.
End NewUser.

Definition new_user_row (v : NewUser.t) (t : Z) : User.t :=
  {| User.id := NewUser.id v;
     User.full_name := NewUser.full_name v;
     User.email := NewUser.email v;
     User.hashedPassword := NewUser.hashedPassword v;
     User.saltPassword := NewUser.saltPassword v;
     User.created_at := t;
     User.updated_at := t;
     User.role := NewUser.role v;
     User.is_active := NewUser.is_active v |}.

(** [db.insert(users_table).values(v).returning()]: the primary key and the
    unique index on [email] are enforced here. *)
Definition db_insert_user (v : NewUser.t) : Eff (list User.t) :=
  fun w =>
    let w1 := log (EvInsert "users") (yield w) in
    match offline w1 with
    | Some e => (Thrown e, w1)
    | None =>
      let us := users (tables w1) in
      if existsb (fun u => String.eqb (User.id u) (NewUser.id v)) us
      then (Thrown (unique_violation "users_pkey"), w1)
      else if existsb (fun u => String.eqb (User.email u) (NewUser.email v)) us
      then (Thrown (unique_violation "users_email_unique"), w1)
      else
        let row := new_user_row v (now w1) in
        (Returned [row], set_tables (with_users (us ++ [row]) (tables w1)) w1)
    end.

(* ===================================================================== *)
(** * [crypto] *)
(* ===================================================================== *)

Definition hex_digit (n : N) : ascii :=
  match n with
  | 0 => "0" | 1 => "1" | 2 => "2" | 3 => "3" | 4 => "4" | 5 => "5"
  | 6 => "6" | 7 => "7" | 8 => "8" | 9 => "9" | 10 => "a" | 11 => "b"
  | 12 => "c" | 13 => "d" | 14 => "e" | _ => "f"
  end%N%char.

Definition hex_of_byte (b : Byte.byte) : string :=
  let n := Byte.to_N b in
  String (hex_digit (n / 16)) (String (hex_digit (n mod 16)) EmptyString).

(** [buf.toString("hex")] *)
Fixpoint toString_hex (buf : list Byte.byte) : string :=
  match buf with
  | [] => ""
  | b :: rest => hex_of_byte b +:+ toString_hex rest
  end.

(** Lower-case hexadecimal text. *)
Definition is_hex_char (c : ascii) : bool :=
  existsb (Ascii.eqb c) (list_ascii_of_string "0123456789abcdef").

Definition is_hex (s : string) : bool :=
  forallb is_hex_char (list_ascii_of_string s).

(** [crypto.randomBytes(n)] *)
Definition randomBytes (n : nat) : Eff (list Byte.byte) :=
  fun w =>
    let g := rng w in
    (Returned (map (fun i => entropy g (drawn g + i)) (seq 0 n)),
     log (EvRandomBytes n) (set_rng {| entropy := entropy g; drawn := drawn g + n |} w)).

(** [crypto.randomUUID()]: sixteen random bytes with the version and variant
    bits of a version 4 identifier, printed 8-4-4-4-12. *)
Definition uuid_v4_bytes (bs : list Byte.byte) : list N :=
  imap (fun i b =>
          let n := Byte.to_N b in
          if Nat.eqb i 6 then N.lor (N.land n 15) 64
          else if Nat.eqb i 8 then N.lor (N.land n 63) 128
          else n) bs.

Definition hex_of_N (n : N) : string :=
  String (hex_digit (n / 16)) (String (hex_digit (n mod 16)) EmptyString).

Definition uuid_text (ns : list N) : string :=
  let h (l : list N) := fold_right (fun n acc => hex_of_N n +:+ acc) "" l in
  h (firstn 4 ns) +:+ "-" +:+ h (firstn 2 (skipn 4 ns)) +:+ "-" +:+
  h (firstn 2 (skipn 6 ns)) +:+ "-" +:+ h (firstn 2 (skipn 8 ns)) +:+ "-" +:+
  h (skipn 10 ns).

Definition randomUUID : Eff string :=
  await bs := randomBytes 16 in ret (uuid_text (uuid_v4_bytes bs)).


(* ===================================================================== *)
(** * [util tools/auth.util.ts] and [db/queries/auth.queries.ts] *)
(* ===================================================================== *)

(** The object [createPasswordHash] returns. *)
Record PasswordHash := { hashedPassword : string; salt : string }.

(** [auth.types.ts] *)
Module SignupRequest.
Record t := {
  full_name : string;
  email : string;
  password : string;
  role : option string }.
End SignupRequest.

Module LoginRequest.
Record t := { email : string; password : string }.
End LoginRequest.

(** [type PublicUser = Omit<User, "hashedPassword" | "saltPassword">];
    at run time, the object left by the rest pattern. *)
Abbreviation PublicUser := JsObject.

(** The object carries neither credential property. *)
Definition omits_credentials (d : PublicUser) : Prop :=
  d !! "hashedPassword" = None /\ d !! "saltPassword" = None.

(** A result handed to a caller: when it carries a user, the user is
    public; only failures carry none. *)
Definition returns_public_user (r : DbResult PublicUser) : Prop :=
  match data r with
  | Some d => omits_credentials d
  | None => success r = false
  end.

Section Credentials.

(** The key-derivation primitive of the platform, as a function of
    password, salt, iteration count, key length in bytes and digest
    name. *)
Variable pbkdf2 : string -> string -> N -> N -> string -> list Byte.byte.

(** [crypto.pbkdf2Sync] *)
Definition pbkdf2Sync (password salt : string) (iterations keylen : N)
    (digest : string) : Eff (list Byte.byte) :=
  fun w => (Returned (pbkdf2 password salt iterations keylen digest),
            log (EvPbkdf2 password salt iterations keylen digest) w).

Definition createPasswordHash (password : string) : Eff PasswordHash :=
  await bytes := randomBytes 16 in
  let salt := toString_hex bytes in
  await key := pbkdf2Sync password salt 100000 64 "sha512" in
  let hash := toString_hex key in
  ret {| hashedPassword := hash; salt := salt |}.

Definition verifyPassword (password storedHash storedSalt : string)
    : Eff bool :=
  await key := pbkdf2Sync password storedSalt 100000 64 "sha512" in
  let hash := toString_hex key in
  ret (String.eqb hash storedHash).

(** Helper: check if email exists *)
Definition checkEmail (email : string) : Eff (DbResult bool) :=
  try_catch
    (await user := db_findFirst "users" users
                     (fun u => String.eqb (User.email u) email) in
     ret (succeed (Some (negb (not_object user)))))
    (fun err => ret (fail (exn_message err))).

(** Signup: create new user *)
Definition createNewUser (signupData : SignupRequest.t)
    : Eff (DbResult PublicUser) :=
  let full_name := SignupRequest.full_name signupData in
  let email := SignupRequest.email signupData in
  let password := SignupRequest.password signupData in
  let role := default "consumer" (SignupRequest.role signupData) in
  if not_string full_name || not_string email || not_string password then
    ret (fail "All fields are required: full_name, email, and password")
  else
  match user_role_of_text role with
  | None => ret (fail "Invalid user role")
  | Some role =>
    try_catch
      (await emailExists := checkEmail email in
       if negb (success emailExists) then
         ret {| success := false; data := None;
                error := error emailExists; count := None |}
       else if negb (not_boolean (data emailExists)) then
         ret (fail "Email already registered")
       else
         await h := createPasswordHash password in
         await userId := randomUUID in
         await inserted :=
           db_insert_user
             {| NewUser.id := userId;
                NewUser.full_name := full_name;
                NewUser.email := email;
                NewUser.hashedPassword := hashedPassword h;
                NewUser.saltPassword := salt h;
                NewUser.role := role;
                NewUser.is_active := true |} in
         match inserted with
         | newUser :: _ =>
           let publicUser :=
             rest_without ["hashedPassword"; "saltPassword"]
                          (User.to_object newUser) in
           ret (succeed (Some publicUser))
         | [] =>
           (* destructuring [undefined] *)
           throw {| exn_name := "TypeError";
                    exn_message :=
                      "Cannot destructure property of undefined" |}
         end)
      (fun error => ret (fail (exn_message error)))
  end.

(** Login: find user by email and verify password *)
Definition loginUser (loginData : LoginRequest.t)
    : Eff (DbResult PublicUser) :=
  let email := LoginRequest.email loginData in
  let password := LoginRequest.password loginData in
  if not_string email || not_string password then
    ret (fail "Email and password are required")
  else
    try_catch
      (await user := db_findFirst "users" users
                       (fun u => String.eqb (User.email u) email) in
       match user with
       | None => ret (fail "Invalid email or password")
       | Some user =>
         if negb (User.is_active user) then
           ret (fail "Account is deactivated")
         else
           await isValidPassword :=
             verifyPassword password (User.hashedPassword user)
                            (User.saltPassword user) in
           if negb isValidPassword then
             ret (fail "Invalid email or password")
           else
             let publicUser :=
               rest_without ["hashedPassword"; "saltPassword"]
                            (User.to_object user) in
             ret (succeed (Some publicUser))
       end)
      (fun error => ret (fail (exn_message error))).

(** Get user by ID (for auth middleware/session verification) *)
Definition getUserById (userId : string) : Eff (DbResult PublicUser) :=
  try_catch
    (await user := db_findFirst "users" users
                     (fun u => String.eqb (User.id u) userId) in
     match user with
     | None => ret (fail "User not found")
     | Some user =>
       if negb (User.is_active user) then
         ret (fail "Account is deactivated")
       else
         let publicUser :=
           rest_without ["hashedPassword"; "saltPassword"]
                        (User.to_object user) in
         ret (succeed (Some publicUser))
     end)
    (fun error => ret (fail (exn_message error))).

End Credentials.

(* ===================================================================== *)
(** * Course queries *)
(* ===================================================================== *)

(** list all active courses *)
Definition activeCourse : Eff (DbResult (list Course.t)) :=
  try_catch
    (await courses_ := db_select "courses" courses
                         (fun c => Bool.eqb (Course.is_deleted c) false) in
     ret (succeed (Some courses_)))
    (fun error => ret (fail (String_of_error error))).

(** get single course details *)
Definition detailCourse (id : string) : Eff (DbResult Course.t) :=
  if not_string id then ret (fail "ID is needed!")
  else
    try_catch
      (await result := db_select "courses" courses
                         (fun c => String.eqb (Course.id c) id) in
       let course := head result in
       ret (succeed course))
      (fun error => ret (fail (String_of_error error))).

(** Check if user is enrolled in course *)
Definition isUserEnrolled (userId courseId : string) : Eff (DbResult bool) :=
  if not_string userId || not_string courseId then
    ret (fail "User ID and Course ID are required!")
  else
    try_catch
      (await result := db_select "course_enrollments" course_enrollments
                         (fun e => String.eqb (Enrollment.course_id e) courseId
                                   && String.eqb (Enrollment.user_id e) userId) in
       let enrollment := Nat.ltb 0 (length result) in
       ret (succeed (Some true)))
      (fun error => ret (fail (String_of_error error))).

(** get course content if only it has access to it *)
Definition getCourseContent (userId courseId : string)
    : Eff (DbResult (list Content.t)) :=
  if not_string userId || not_string courseId then
    ret (fail "User ID and Course ID are required!")
  else
    try_catch
      (await isEnrolled := isUserEnrolled userId courseId in
       if negb (success isEnrolled) || not_boolean (data isEnrolled) then
         ret (fail "Access denied. User is not enrolled in the course.")
       else
         await courseContent :=
           db_select "course_content" course_content
             (fun c => match Content.course_id c with
                       | Some cid => String.eqb cid courseId
                       | None => false
                       end) in
         (* an array is never falsy, so [!courseContent] is [false] *)
         if false then ret (fail "Course content not found.")
         else ret (succeed (Some courseContent)))
      (fun error => ret (fail (String_of_error error))).

(* ===================================================================== *)
(** * Content order and visibility as the specification words them *)
(* ===================================================================== *)

(** [a] comes no later than [b]: ascending [order], unset orders last. *)
Definition order_le (a b : Content.t) : bool :=
  match Content.order a, Content.order b with
  | Some x, Some y => (x <=? y)%Z
  | Some _, None => true
  | None, Some _ => false
  | None, None => true
  end.

Fixpoint insert_by_order (c : Content.t) (l : list Content.t)
    : list Content.t :=
  match l with
  | [] => [c]
  | d :: rest =>
    if order_le d c then d :: insert_by_order c rest else c :: d :: rest
  end.

(** A stable sort: items that compare equal keep the order of the scan
    (rows are scanned in creation order). *)
Definition sort_by_order (l : list Content.t) : list Content.t :=
  fold_left (fun acc c => insert_by_order c acc) l [].

(** The listing the specification describes for a user with access: the
    course's items that are not soft-deleted, by ascending [order], unset
    orders last.  Stated from the specification, for comparison with
    [getCourseContent]. *)
Definition spec_getCourseContent (courseId : string) (t : Tables)
    : list Content.t :=
  sort_by_order
    (List.filter
       (fun c => match Content.course_id c with
                 | Some cid => String.eqb cid courseId
                 | None => false
                 end && negb (Content.is_deleted c))
       (course_content t)).

(** The specification's content-access answer: some enrollment of the pair
    has [has_access] set.  Stated from the specification, for comparison
    with [isUserEnrolled]. *)
Definition spec_canAccessContent (userId courseId : string) (t : Tables)
    : bool :=
  existsb (fun e => String.eqb (Enrollment.user_id e) userId
                    && String.eqb (Enrollment.course_id e) courseId
                    && Enrollment.has_access e)
          (course_enrollments t).

(* ===================================================================== *)
(** * The purchase state machine *)
(* ===================================================================== *)

(** The schema declares [purchase_status_enum] and the two tables; the
    operations that move a purchase from one status to the next are not
    part of the query layer above. *)
Module AccessControl.

(** Modelled from the spec: the PurchaseRecord of section 3 (identifier,
    user, course, purchase timestamp, updated_at, status, payment method,
    amount); [confirmPayment] and [processRefund], which act on it, are
    missing from the sources. *)
Record PurchaseRecord := {
  purchase_id : string;
  user_id : string;
  course_id : string;
  purchase_date : Z;
  updated_at : Z;
  status : purchase_status_enum;
  payment_method : string;
  amount : Z }.

(** Modelled from the spec: the EnrollmentRecord of section 3 (identifier,
    user, course, enrolled_at, has_access), written only by the missing
    transition operations. *)
Record EnrollmentRecord := {
  enrollment_id : string;
  enrolled_user : string;
  enrolled_course : string;
  enrolled_at : Z;
  has_access : bool }.

(** Modelled from the spec: the store the missing transition operations
    read and write, purchases and enrollments. *)
Record Store := {
  purchases : list PurchaseRecord;
  enrollments : list EnrollmentRecord }.

(** Modelled from the spec: the failure kinds of the missing operations
    [confirmPayment] and [processRefund] (section 6). *)
Inductive Failure := InvalidTransition | NotFound.

(** Modelled from the spec: the two external signals of section 4.3 that
    trigger the missing transition operations. *)
Inductive Signal := PaymentConfirmed | RefundProcessed.

(** Modelled from the spec: the transition table of section 4.3, which the
    missing operations enforce: pending to completed on a confirmed payment,
    completed to refunded on a processed refund, nothing else. *)
Definition next_status (s : purchase_status_enum) (sig : Signal)
    : option purchase_status_enum :=
  match s, sig with
  | pending, PaymentConfirmed => Some completed
  | completed, RefundProcessed => Some refunded
  | _, _ => None
  end.

(** Modelled from the spec: the access a transition of the missing
    operations leaves, granted on completion and revoked on refund. *)
Definition access_after (sig : Signal) : bool :=
  match sig with PaymentConfirmed => true | RefundProcessed => false end.

(** Modelled from the spec: "the corresponding EnrollmentRecord" of the
    missing operations, the one of the purchase's user and course. *)
Definition same_pair (u c : string) (e : EnrollmentRecord) : bool :=
  String.eqb (enrolled_user e) u && String.eqb (enrolled_course e) c.

(** Modelled from the spec: the write of [has_access] by the missing
    operations; every other field is kept. *)
Definition set_access (b : bool) (e : EnrollmentRecord) : EnrollmentRecord :=
  {| enrollment_id := enrollment_id e; enrolled_user := enrolled_user e;
     enrolled_course := enrolled_course e; enrolled_at := enrolled_at e;
     has_access := b |}.

(** Modelled from the spec: the side effect of the missing operations on
    the enrollment of the pair.  On completion the record is created (with
    [enrolled_at] set) or updated; on refund an existing record has its
    access revoked and is kept. *)
Definition write_enrollment (sig : Signal) (now : Z) (fresh : string)
    (u c : string) (es : list EnrollmentRecord) : list EnrollmentRecord :=
  if existsb (same_pair u c) es then
    map (fun e => if same_pair u c e then set_access (access_after sig) e
                  else e) es
  else
    match sig with
    | PaymentConfirmed =>
      es ++ [{| enrollment_id := fresh; enrolled_user := u;
                enrolled_course := c; enrolled_at := now;
                has_access := true |}]
    | RefundProcessed => es
    end.

(** Modelled from the spec: the write of [status] by the missing
    operations, which also refreshes [updated_at] (section 3). *)
Definition set_status (s : purchase_status_enum) (now : Z)
    (p : PurchaseRecord) : PurchaseRecord :=
  {| purchase_id := purchase_id p; user_id := user_id p;
     course_id := course_id p; purchase_date := purchase_date p;
     updated_at := now; status := s;
     payment_method := payment_method p; amount := amount p |}.

(** Modelled from the spec: the lookup by [purchaseId] of the missing
    operations. *)
Definition find_purchase (purchaseId : string) (st : Store)
    : option PurchaseRecord :=
  find (fun p => String.eqb (purchase_id p) purchaseId) (purchases st).

(** Modelled from the spec: the EnrollmentRecord the missing operations
    return next to the purchase. *)
Definition find_enrollment (u c : string) (st : Store)
    : option EnrollmentRecord :=
  find (same_pair u c) (enrollments st).

(** Modelled from the spec: the common body of the missing operations
    [confirmPayment] and [processRefund]: look the purchase up, fail with
    [NotFound] or [InvalidTransition] without writing, otherwise update
    the purchase and its enrollment together. *)
Definition transition (sig : Signal) (now : Z) (fresh : string)
    (purchaseId : string) (st : Store)
    : (Failure + PurchaseRecord * option EnrollmentRecord) * Store :=
  match find_purchase purchaseId st with
  | None => (inl NotFound, st)
  | Some p =>
    match next_status (status p) sig with
    | None => (inl InvalidTransition, st)
    | Some s' =>
      let p' := set_status s' now p in
      let st' :=
        {| purchases :=
             map (fun q => if String.eqb (purchase_id q) purchaseId
                           then set_status s' now q else q) (purchases st);
           enrollments :=
             write_enrollment sig now fresh (user_id p) (course_id p)
                              (enrollments st) |} in
      (inr (p', find_enrollment (user_id p) (course_id p) st'), st')
    end
  end.

(** Modelled from the spec: [confirmPayment(purchaseId)] of section 6,
    missing from the sources. *)
Definition confirmPayment := transition PaymentConfirmed.

(** Modelled from the spec: [processRefund(purchaseId)] of section 6,
    missing from the sources. *)
Definition processRefund := transition RefundProcessed.

(** Modelled from the spec: [canAccessContent] of section 4.3 on the store
    of the missing operations: a record of the pair exists with
    [has_access] set. *)
Definition canAccessContent (u c : string) (st : Store) : bool :=
  existsb (fun e => same_pair u c e && has_access e) (enrollments st).

End AccessControl.

(* ===================================================================== *)
(** * Sample data for closed examples *)
(* ===================================================================== *)

(** A stand-in for the key-derivation primitive, used only to run closed
    examples: the salt and password bytes, cut or padded to the key
    length. *)
Definition sample_kdf (password salt : string) (iterations keylen : N)
    (digest : string) : list Byte.byte :=
  firstn (N.to_nat keylen)
         (String.list_byte_of_string (salt +:+ password)
          ++ repeat Byte.x00 (N.to_nat keylen)).

Definition sample_rng : Rng :=
  {| entropy := fun i => default Byte.x00 (Byte.of_nat (i mod 256));
     drawn := 0 |}.

Definition no_tables : Tables :=
  {| users := []; courses := []; course_content := [];
     purchase_history := []; course_enrollments := [] |}.

(** A request running alone against tables [t]. *)
Definition alone (t : Tables) : World :=
  {| tables := t; offline := None; concurrent := []; now := 1700000000;
     rng := sample_rng; trace := [] |}.

Definition sample_user (id email password : string) (active : bool)
    : User.t :=
  {| User.id := id; User.full_name := "Sample User"; User.email := email;
     User.hashedPassword :=
       toString_hex (sample_kdf password "00ff" 100000 64 "sha512");
     User.saltPassword := "00ff";
     User.created_at := 1600000000; User.updated_at := 1600000000;
     User.role := consumer; User.is_active := active |}.

Definition sample_users : Tables :=
  with_users [sample_user "u1" "a@x.com" "secret" true;
              sample_user "u2" "b@x.com" "hunter2" false] no_tables.

Definition sample_item (id : string) (ord : option Z) (created : Z)
    (deleted : bool) : Content.t :=
  {| Content.id := id; Content.course_id := Some "c1";
     Content.title := id; Content.description := None;
     Content.content_type := "video";
     Content.content_url := "https://cdn.example.com/" +:+ id;
     Content.order := ord; Content.created_at := created;
     Content.updated_at := created; Content.is_deleted := deleted |}.

(** Course [c1] with items ordered 3, 1, unset, 2 and a soft-deleted item;
    user [u1] holds an enrollment with access. *)
Definition sample_course : Tables :=
  {| users := []; courses := [];
     course_content :=
       [sample_item "k3" (Some 3%Z) 1 false;
        sample_item "k1" (Some 1%Z) 2 false;
        sample_item "kn" None 3 false;
        sample_item "k2" (Some 2%Z) 4 false;
        sample_item "kd" (Some 0%Z) 5 true];
     purchase_history := [];
     course_enrollments :=
       [{| Enrollment.id := "e1"; Enrollment.user_id := "u1";
           Enrollment.course_id := "c1"; Enrollment.enrolled_at := 10;
           Enrollment.has_access := true |}] |}.


Definition sample_signup : SignupRequest.t :=
  {| SignupRequest.full_name := "Ada"; SignupRequest.email := "a@x.com";
     SignupRequest.password := "secret"; SignupRequest.role := None |}.

Definition sample_login (email password : string) : LoginRequest.t :=
  {| LoginRequest.email := email; LoginRequest.password := password |}.

Definition sample_purchase (s : purchase_status_enum)
    : AccessControl.PurchaseRecord :=
  {| AccessControl.purchase_id := "p1"; AccessControl.user_id := "u1";
     AccessControl.course_id := "c1"; AccessControl.purchase_date := 5;
     AccessControl.updated_at := 5; AccessControl.status := s;
     AccessControl.payment_method := "stripe";
     AccessControl.amount := 4999 |}.

Definition sample_store (s : purchase_status_enum) : AccessControl.Store :=
  {| AccessControl.purchases := [sample_purchase s];
     AccessControl.enrollments := [] |}.

(** The error a query rejects with while the database cannot be reached. *)
Definition store_down : Exn :=
  {| exn_name := "Error"; exn_message := "connect ECONNREFUSED" |}.

(** A request running alone while the database cannot be reached. *)
Definition unreachable (t : Tables) : World :=
  {| tables := t; offline := Some store_down; concurrent := [];
     now := 1700000000; rng := sample_rng; trace := [] |}.

Definition sample_course_row (id name : string) (deleted : bool) : Course.t :=
  {| Course.id := id; Course.admin_id := None; Course.course_name := name;
     Course.price := 4999; Course.created_at := 1; Course.updated_at := 1;
     Course.is_deleted := deleted |}.

(** A catalogue with one live course and one soft-deleted course. *)
Definition sample_catalog : Tables :=
  {| users := [];
     courses := [sample_course_row "c1" "Rocq" false;
                 sample_course_row "c2" "Retired" true];
     course_content := []; purchase_history := [];
     course_enrollments := [] |}.

Definition signup_as (full_name email password : string)
    (role : option string) : SignupRequest.t :=
  {| SignupRequest.full_name := full_name; SignupRequest.email := email;
     SignupRequest.password := password; SignupRequest.role := role |}.

(** The salt a signup starting in world [w] draws: the hex text of the next
    sixteen bytes of the random source. *)
Definition next_salt (w : World) : string :=
  toString_hex (map (fun i => entropy (rng w) (drawn (rng w) + i)) (seq 0 16)).

(** The user id a signup starting in world [w] draws, from the sixteen bytes
    after the salt's. *)
Definition next_user_id (w : World) : string :=
  uuid_text (uuid_v4_bytes
    (map (fun i => entropy (rng w) (drawn (rng w) + 16 + i)) (seq 0 16))).

(** The row a signup starting in world [w] hands to the insert, once the
    role text has been read as [role]. *)
Definition signup_row
    (pbkdf2 : string -> string -> N -> N -> string -> list Byte.byte)
    (signupData : SignupRequest.t) (role : user_role_enum) (w : World)
    : User.t :=
  {| User.id := next_user_id w;
     User.full_name := SignupRequest.full_name signupData;
     User.email := SignupRequest.email signupData;
     User.hashedPassword :=
       toString_hex (pbkdf2 (SignupRequest.password signupData)
                            (next_salt w) 100000%N 64%N "sha512");
     User.saltPassword := next_salt w;
     User.created_at := now w;
     User.updated_at := now w;
     User.role := role;
     User.is_active := true |}.

(* ===================================================================== *)
(** * Running effectful code *)
(* ===================================================================== *)

Lemma offline_yield w : offline (yield w) = offline w.
Proof. unfold yield. destruct (concurrent w); reflexivity. Qed.

Lemma trace_yield w : trace (yield w) = trace w.
Proof. unfold yield. destruct (concurrent w); reflexivity. Qed.

Lemma yield_log ev w : yield (log ev w) = log ev (yield w).
Proof. unfold yield. cbn. destruct (concurrent w); reflexivity. Qed.

Lemma yield_alone w : concurrent w = [] -> yield w = w.
Proof. unfold yield. intros ->. reflexivity. Qed.

Lemma db_select_online {R} name (tbl : Tables -> list R) p w :
  offline w = None ->
  db_select name tbl p w =
  (Returned (List.filter p (tbl (tables (yield w)))),
   log (EvSelect name) (yield w)).
Proof.
  intros Hon. unfold db_select. cbn [offline log].
  rewrite offline_yield, Hon. reflexivity.
Qed.

Lemma db_select_offline {R} name (tbl : Tables -> list R) p w e :
  offline w = Some e ->
  db_select name tbl p w = (Thrown e, log (EvSelect name) (yield w)).
Proof.
  intros Hoff. unfold db_select. cbn [offline log].
  rewrite offline_yield, Hoff. reflexivity.
Qed.

Lemma filter_none {R} (p : R -> bool) (l : list R) :
  (forall r, In r l -> p r = false) -> List.filter p l = [].
Proof.
  induction l as [|r l IH]; intros Hall; [reflexivity|].
  cbn. rewrite (Hall r (or_introl eq_refl)).
  apply IH. intros r' Hin. apply Hall. right. exact Hin.
Qed.

Lemma not_string_false s : s <> "" -> not_string s = false.
Proof. intros H. unfold not_string. apply String.eqb_neq. exact H. Qed.

Lemma not_string_true s : not_string s = true -> s = "".
Proof. unfold not_string. apply String.eqb_eq. Qed.

(* ===================================================================== *)
(** * Course queries: properties *)
(* ===================================================================== *)

(** C9.  [detailCourse] always returns a result object.  The result is a
    failure exactly when the id is empty or the store threw; for a
    non-empty id that matches no course of the store, and a store that
    answers, the result is [{ success: true, data: undefined }], not a
    failure. *)
Theorem detailCourse_unknown_id_is_success (id : string) (w : World) :
  exists r,
    fst (detailCourse id w) = Returned r /\
    (success r = false <-> id = "" \/ offline w <> None) /\
    (id <> "" -> offline w = None ->
     (forall c, In c (courses (tables (yield w))) -> Course.id c <> id) ->
     r = succeed None).
Proof.
  unfold detailCourse.
  destruct (not_string id) eqn:Hid.
  - apply not_string_true in Hid. subst id.
    exists (fail "ID is needed!"). cbn. repeat split; auto.
    intros Hne. congruence.
  - assert (Hne : id <> "").
    { intros ->. discriminate Hid. }
    destruct (offline w) as [e|] eqn:Hoff.
    + exists (fail (String_of_error e)).
      unfold try_catch, bind. rewrite (db_select_offline _ _ _ _ e Hoff).
      cbn. repeat split; auto; intros; congruence.
    + eexists. unfold try_catch, bind. rewrite (db_select_online _ _ _ _ Hoff).
      cbn. split; [reflexivity|]. split.
      * split; [discriminate|]. intros [H|H]; congruence.
      * intros _ _ Hmiss. rewrite filter_none; [reflexivity|].
        intros c Hin. apply String.eqb_neq. apply Hmiss. exact Hin.
Qed.

(** The C9 statement at the id [c404] and a store without courses. *)
Lemma detailCourse_unknown_id_witness :
  fst (detailCourse "c404" (alone no_tables)) = Returned (succeed None).
Proof.
  destruct (detailCourse_unknown_id_is_success "c404" (alone no_tables))
    as [r [Hr [_ Hmiss]]].
  rewrite Hr. f_equal. apply Hmiss.
  - discriminate.
  - reflexivity.
  - intros c Hin. destruct Hin.
Defined.

(** The enrollment lookup does not reach the answer: whenever both ids are
    non-empty and the store answers, the result is
    [{ success: true, data: true }], whatever the enrollments table holds. *)
Lemma isUserEnrolled_always_true (userId courseId : string) (w : World) :
  userId <> "" -> courseId <> "" -> offline w = None ->
  isUserEnrolled userId courseId w =
  (Returned (succeed (Some true)),
   log (EvSelect "course_enrollments") (yield w)).
Proof.
  intros Hu Hc Hon. unfold isUserEnrolled.
  rewrite (not_string_false _ Hu), (not_string_false _ Hc). cbn [orb].
  unfold try_catch, bind. rewrite (db_select_online _ _ _ _ Hon).
  reflexivity.
Qed.

(** C1.  The specification asks for [true] exactly when an enrollment of the
    pair has [has_access] set, and for [false] when there is none.  On a
    store with no enrollment at all the specified answer is [false], yet
    [isUserEnrolled "u1" "c1"] answers [{ success: true, data: true }]: the
    computed [result.length > 0] is dropped and the literal [true] is
    returned. *)
Theorem isUserEnrolled_true_without_enrollment :
  course_enrollments no_tables = [] /\
  spec_canAccessContent "u1" "c1" no_tables = false /\
  fst (isUserEnrolled "u1" "c1" (alone no_tables))
  = Returned (succeed (Some true)).
Proof. repeat split. Qed.

(** C2.  On course [c1] with items ordered 3, 1, unset, 2 and one
    soft-deleted item, the specification lists the items ordered 1, 2, 3 and
    then the unordered one, without the deleted one.  [getCourseContent]
    returns the rows as scanned: 3, 1, unset, 2 and the soft-deleted row
    too; the query has neither an [is_deleted] filter nor an ordering. *)
Theorem getCourseContent_unsorted_with_deleted :
  map Content.id (spec_getCourseContent "c1" sample_course)
  = ["k1"; "k2"; "k3"; "kn"] /\
  fst (getCourseContent "u1" "c1" (alone sample_course))
  = Returned (succeed (Some (course_content sample_course))) /\
  map Content.id (course_content sample_course)
  = ["k3"; "k1"; "kn"; "k2"; "kd"] /\
  existsb Content.is_deleted (course_content sample_course) = true.
Proof. repeat split. Qed.

(** For every user the access check lets through, the result is the
    course's rows in scan order, soft-deleted ones included. *)
Lemma getCourseContent_rows_as_scanned (userId courseId : string) (w : World) :
  userId <> "" -> courseId <> "" -> offline w = None ->
  fst (getCourseContent userId courseId w) =
  Returned (succeed (Some
    (List.filter
       (fun c => match Content.course_id c with
                 | Some cid => String.eqb cid courseId
                 | None => false
                 end)
       (course_content (tables (yield (yield w))))))).
Proof.
  intros Hu Hc Hon. unfold getCourseContent.
  rewrite (not_string_false _ Hu), (not_string_false _ Hc). cbn [orb].
  unfold try_catch at 1. unfold bind at 1.
  rewrite (isUserEnrolled_always_true _ _ _ Hu Hc Hon).
  cbn [success data succeed negb not_boolean orb].
  unfold bind. rewrite db_select_online.
  - rewrite yield_log. reflexivity.
  - cbn. rewrite offline_yield. exact Hon.
Qed.

(* ===================================================================== *)
(** * Credential engine: properties *)
(* ===================================================================== *)

Lemma hex_of_byte_is_hex (b : Byte.byte) : is_hex (hex_of_byte b) = true.
Proof. destruct b; reflexivity. Qed.

Lemma is_hex_append (s t : string) :
  is_hex (s +:+ t) = is_hex s && is_hex t.
Proof.
  unfold is_hex. induction s as [|c s IH]; [reflexivity|].
  simpl. rewrite IH. apply andb_assoc.
Qed.

Lemma toString_hex_is_hex (buf : list Byte.byte) :
  is_hex (toString_hex buf) = true.
Proof.
  induction buf as [|b rest IH]; [reflexivity|].
  cbn [toString_hex]. rewrite is_hex_append, hex_of_byte_is_hex, IH.
  reflexivity.
Qed.

Lemma toString_hex_length (buf : list Byte.byte) :
  String.length (toString_hex buf) = 2 * length buf.
Proof.
  induction buf as [|b rest IH]; [reflexivity|].
  change (toString_hex (b :: rest))
    with (String (hex_digit (Byte.to_N b / 16))
            (String (hex_digit (Byte.to_N b mod 16)) (toString_hex rest))).
  cbn [String.length length]. rewrite IH. lia.
Qed.

Lemma sample_kdf_length password salt iterations keylen digest :
  length (sample_kdf password salt iterations keylen digest)
  = N.to_nat keylen.
Proof.
  unfold sample_kdf. rewrite length_firstn, length_app, repeat_length. lia.
Qed.

Section CredentialFacts.

Variable pbkdf2 : string -> string -> N -> N -> string -> list Byte.byte.

Lemma verifyPassword_run password storedHash storedSalt w :
  verifyPassword pbkdf2 password storedHash storedSalt w =
  (Returned (String.eqb
               (toString_hex (pbkdf2 password storedSalt 100000 64 "sha512"))
               storedHash),
   log (EvPbkdf2 password storedSalt 100000 64 "sha512") w).
Proof. reflexivity. Qed.

Lemma createPasswordHash_run password w :
  let bytes := map (fun i => entropy (rng w) (drawn (rng w) + i)) (seq 0 16) in
  let salt := toString_hex bytes in
  createPasswordHash pbkdf2 password w =
  (Returned {| hashedPassword :=
                 toString_hex (pbkdf2 password salt 100000 64 "sha512");
               salt := salt |},
   log (EvPbkdf2 password salt 100000 64 "sha512")
       (log (EvRandomBytes 16)
            (set_rng {| entropy := entropy (rng w);
                        drawn := drawn (rng w) + 16 |} w))).
Proof. reflexivity. Qed.



End CredentialFacts.


(* ===================================================================== *)
(** * Auth queries: properties *)
(* ===================================================================== *)

Lemma rest_without_credentials (o : JsObject) :
  omits_credentials (rest_without ["hashedPassword"; "saltPassword"] o).
Proof.
  unfold omits_credentials, rest_without. cbn [foldr]. split.
  - apply lookup_delete_eq.
  - rewrite lookup_delete_ne by discriminate. apply lookup_delete_eq.
Qed.

(** The rest pattern keeps every other property of the row. *)
Lemma rest_without_keeps (o : JsObject) (k : string) :
  k <> "hashedPassword" -> k <> "saltPassword" ->
  rest_without ["hashedPassword"; "saltPassword"] o !! k = o !! k.
Proof.
  intros H1 H2. unfold rest_without. cbn [foldr].
  rewrite !lookup_delete_ne by congruence. reflexivity.
Qed.

Lemma fail_is_public (msg : string) : returns_public_user (fail msg).
Proof. reflexivity. Qed.

Lemma public_row_is_public (u : User.t) :
  returns_public_user
    (succeed (Some (rest_without ["hashedPassword"; "saltPassword"]
                                 (User.to_object u)))).
Proof. apply rest_without_credentials. Qed.

(** A body whose every returned result is public, wrapped in a handler that
    turns a thrown error into a failure, always returns a public result. *)
Lemma try_catch_public (body : Eff (DbResult PublicUser))
    (msg : Exn -> string) (w : World) :
  (forall r w', body w = (Returned r, w') -> returns_public_user r) ->
  exists r w',
    try_catch body (fun e => ret (fail (msg e))) w = (Returned r, w') /\
    returns_public_user r.
Proof.
  intros Hbody. unfold try_catch.
  destruct (body w) as [[r|e] w'] eqn:Hrun.
  - exists r, w'. split; [reflexivity|]. apply (Hbody r w'). reflexivity.
  - exists (fail (msg e)), w'. split; [reflexivity|]. apply fail_is_public.
Qed.

(** Destructs the next call a [bind] in [H] is waiting on. *)
Ltac next_call H :=
  unfold bind in H;
  match type of H with
  | context [match ?c ?w with _ => _ end] =>
    let a := fresh "a" in
    let e := fresh "e" in
    let w' := fresh "w" in
    destruct (c w) as [[a|e] w']; [|discriminate H]
  end.

Ltac returned H :=
  unfold ret in H; inversion H; subst; clear H.

Section AuthFacts.

Variable pbkdf2 : string -> string -> N -> N -> string -> list Byte.byte.

Lemma getUserById_public userId w :
  exists r w',
    getUserById userId w = (Returned r, w') /\ returns_public_user r.
Proof.
  unfold getUserById. apply try_catch_public. intros r w' H.
  next_call H. destruct a as [u|]; [|returned H; apply fail_is_public].
  destruct (negb (User.is_active u)); returned H;
    [apply fail_is_public | apply public_row_is_public].
Qed.

Lemma loginUser_public loginData w :
  exists r w',
    loginUser pbkdf2 loginData w = (Returned r, w') /\
    returns_public_user r.
Proof.
  unfold loginUser.
  destruct (not_string _ || not_string _).
  { do 2 eexists. split; [reflexivity|]. apply fail_is_public. }
  apply try_catch_public. intros r w' H.
  next_call H. destruct a as [u|]; [|returned H; apply fail_is_public].
  destruct (negb (User.is_active u)); [returned H; apply fail_is_public|].
  next_call H.
  destruct (negb a); returned H;
    [apply fail_is_public | apply public_row_is_public].
Qed.

Lemma createNewUser_public signupData w :
  exists r w',
    createNewUser pbkdf2 signupData w = (Returned r, w') /\
    returns_public_user r.
Proof.
  unfold createNewUser.
  destruct (not_string _ || not_string _ || not_string _).
  { do 2 eexists. split; [reflexivity|]. apply fail_is_public. }
  destruct (user_role_of_text _) as [role|].
  2: { do 2 eexists. split; [reflexivity|]. apply fail_is_public. }
  apply try_catch_public. intros r w' H.
  next_call H.
  destruct (negb (success a)); [returned H; reflexivity|].
  destruct (negb (not_boolean (data a))); [returned H; apply fail_is_public|].
  next_call H. next_call H. next_call H.
  destruct a2 as [|newUser rest]; [discriminate H|].
  returned H. apply public_row_is_public.
Qed.

(** C3.  Signup, login and lookup by id always return a result object, and
    whenever that result carries a user, the object has neither the
    [hashedPassword] nor the [saltPassword] property; a result without a
    user is a failure. *)
Theorem returned_users_omit_credentials
    (signupData : SignupRequest.t) (loginData : LoginRequest.t)
    (userId : string) (w : World) :
  (exists r w', createNewUser pbkdf2 signupData w = (Returned r, w') /\
                returns_public_user r) /\
  (exists r w', loginUser pbkdf2 loginData w = (Returned r, w') /\
                returns_public_user r) /\
  (exists r w', getUserById userId w = (Returned r, w') /\
                returns_public_user r).
Proof.
  split; [apply createNewUser_public|].
  split; [apply loginUser_public | apply getUserById_public].
Qed.

End AuthFacts.

Section LoginFacts.

Variable pbkdf2 : string -> string -> N -> N -> string -> list Byte.byte.

(** What [loginUser] does on a request that passes validation while the
    store answers. *)
Lemma loginUser_run (loginData : LoginRequest.t) (w : World) :
  let email := LoginRequest.email loginData in
  let password := LoginRequest.password loginData in
  let w1 := log (EvSelect "users") (yield w) in
  email <> "" -> password <> "" -> offline w = None ->
  loginUser pbkdf2 loginData w =
  match head (List.filter (fun u => String.eqb (User.email u) email)
                          (users (tables (yield w)))) with
  | None => (Returned (fail "Invalid email or password"), w1)
  | Some user =>
    if User.is_active user then
      let w2 := log (EvPbkdf2 password (User.saltPassword user)
                              100000 64 "sha512") w1 in
      if String.eqb
           (toString_hex (pbkdf2 password (User.saltPassword user)
                                 100000 64 "sha512"))
           (User.hashedPassword user)
      then (Returned (succeed (Some
              (rest_without ["hashedPassword"; "saltPassword"]
                            (User.to_object user)))), w2)
      else (Returned (fail "Invalid email or password"), w2)
    else (Returned (fail "Account is deactivated"), w1)
  end.
Proof.
  intros email password w1 He Hp Hon. unfold loginUser.
  fold email password.
  rewrite (not_string_false _ He), (not_string_false _ Hp). cbn [orb].
  unfold try_catch, db_findFirst, bind, ret.
  rewrite (db_select_online _ _ _ _ Hon). fold w1.
  destruct (head _) as [user|]; [|reflexivity].
  destruct (User.is_active user); cbn [negb]; [|reflexivity].
  rewrite verifyPassword_run.
  destruct (String.eqb _ _); reflexivity.
Qed.

(** C5.  For a login request with non-empty email and password, while the
    store answers: if no user has the email the result is the failure
    [Invalid email or password]; if the user found is active and the
    password does not verify, it is that same failure; if the user found
    has [is_active = false] it is the distinct failure
    [Account is deactivated], whatever the password; if the user found is
    active and the password verifies it is a success carrying the user's
    row without its credential properties. *)
Theorem loginUser_outcomes (loginData : LoginRequest.t) (w : World) :
  let email := LoginRequest.email loginData in
  let password := LoginRequest.password loginData in
  let found := head (List.filter (fun u => String.eqb (User.email u) email)
                                 (users (tables (yield w)))) in
  let verifies (u : User.t) (b : bool) :=
    fst (verifyPassword pbkdf2 password (User.hashedPassword u)
                        (User.saltPassword u) w) = Returned b in
  let result := fst (loginUser pbkdf2 loginData w) in
  email <> "" -> password <> "" -> offline w = None ->
  (found = None ->
   result = Returned (fail "Invalid email or password")) /\
  (forall u, found = Some u -> User.is_active u = true ->
             verifies u false ->
   result = Returned (fail "Invalid email or password")) /\
  (forall u, found = Some u -> User.is_active u = false ->
   result = Returned (fail "Account is deactivated")) /\
  (forall u, found = Some u -> User.is_active u = true ->
             verifies u true ->
   exists publicUser,
     result = Returned (succeed (Some publicUser)) /\
     publicUser = rest_without ["hashedPassword"; "saltPassword"]
                               (User.to_object u) /\
     omits_credentials publicUser) /\
  @fail PublicUser "Account is deactivated"
  <> fail "Invalid email or password".
Proof.
  intros email password found verifies result He Hp Hon.
  subst result. rewrite (loginUser_run loginData w He Hp Hon).
  fold email password found. subst verifies. cbn beta.
  repeat split.
  - intros ->. reflexivity.
  - intros u -> Hact Hv. rewrite Hact.
    rewrite verifyPassword_run in Hv. cbn [fst] in Hv.
    injection Hv as ->. reflexivity.
  - intros u -> Hact. rewrite Hact. reflexivity.
  - intros u -> Hact Hv. rewrite Hact.
    rewrite verifyPassword_run in Hv. cbn [fst] in Hv.
    injection Hv as ->. eexists. split; [reflexivity|].
    split; [reflexivity|]. apply rest_without_credentials.
  - discriminate.
Qed.

(** C10.  [loginUser] looks at [is_active] before the password.  For a
    request with non-empty email and password whose email finds a
    deactivated user, the result is [Account is deactivated] whatever the
    password; the only event of the call is the lookup in [users], so no
    key derivation is run; and the result differs from the one an unknown
    email gets. *)
Theorem loginUser_deactivated_before_password
    (loginData : LoginRequest.t) (w : World) (u : User.t) :
  let email := LoginRequest.email loginData in
  let password := LoginRequest.password loginData in
  email <> "" -> password <> "" -> offline w = None ->
  head (List.filter (fun u => String.eqb (User.email u) email)
                    (users (tables (yield w)))) = Some u ->
  User.is_active u = false ->
  exists w',
    loginUser pbkdf2 loginData w
    = (Returned (fail "Account is deactivated"), w') /\
    trace w' = EvSelect "users" :: trace w /\
    (forall p s i k d, ~ In (EvPbkdf2 p s i k d) (trace w) ->
                       ~ In (EvPbkdf2 p s i k d) (trace w')) /\
    @fail PublicUser "Account is deactivated"
    <> fail "Invalid email or password".
Proof.
  intros email password He Hp Hon Hfound Hinactive.
  rewrite (loginUser_run loginData w He Hp Hon).
  fold email. rewrite Hfound, Hinactive.
  eexists. split; [reflexivity|].
  cbn [trace log]. rewrite trace_yield.
  split; [reflexivity|]. split; [|discriminate].
  intros p s i k d Hold [Hnew|Hin]; [discriminate Hnew | exact (Hold Hin)].
Qed.

End LoginFacts.

(** The C5 statement at the sample users: the active user logs in with the
    right password and gets the public row. *)
Lemma loginUser_outcomes_witness :
  fst (loginUser sample_kdf (sample_login "a@x.com" "secret")
                 (alone sample_users))
  = Returned (succeed (Some
      (rest_without ["hashedPassword"; "saltPassword"]
         (User.to_object (sample_user "u1" "a@x.com" "secret" true))))).
Proof.
  pose proof (loginUser_outcomes sample_kdf (sample_login "a@x.com" "secret")
                (alone sample_users)) as H.
  cbv zeta in H.
  assert (He : LoginRequest.email (sample_login "a@x.com" "secret") <> "")
    by discriminate.
  assert (Hp : LoginRequest.password (sample_login "a@x.com" "secret") <> "")
    by discriminate.
  destruct (H He Hp eq_refl) as (_ & _ & _ & Hok & _).
  destruct (Hok (sample_user "u1" "a@x.com" "secret" true)
                eq_refl eq_refl eq_refl) as [d [Hr [Hd _]]].
  rewrite Hr, Hd. reflexivity.
Defined.

(** The C10 statement at the sample users: the deactivated user is told so
    on a wrong password, after a single lookup. *)
Lemma loginUser_deactivated_witness :
  exists w',
    loginUser sample_kdf (sample_login "b@x.com" "not-the-password")
              (alone sample_users)
    = (Returned (fail "Account is deactivated"), w') /\
    trace w' = [EvSelect "users"].
Proof.
  assert (He : LoginRequest.email (sample_login "b@x.com" "not-the-password")
               <> "") by discriminate.
  assert (Hp : LoginRequest.password
                 (sample_login "b@x.com" "not-the-password") <> "")
    by discriminate.
  destruct (loginUser_deactivated_before_password sample_kdf
              (sample_login "b@x.com" "not-the-password")
              (alone sample_users)
              (sample_user "u2" "b@x.com" "hunter2" false)
              He Hp eq_refl eq_refl eq_refl) as [w' [Hrun [Htrace _]]].
  exists w'. split; [exact Hrun | exact Htrace].
Defined.

(** ** Signup on an address already taken *)

Lemma yield_set_rng g w : yield (set_rng g w) = set_rng g (yield w).
Proof. unfold yield. cbn. destruct (concurrent w); reflexivity. Qed.

Lemma found_iff_exists {R} (p : R -> bool) (l : list R) :
  negb (not_object (head (List.filter p l))) = existsb p l.
Proof.
  induction l as [|r l IH]; [reflexivity|].
  cbn. destruct (p r); [reflexivity | exact IH].
Qed.

Lemma checkEmail_run (email : string) (w : World) :
  offline w = None ->
  checkEmail email w =
  (Returned (succeed (Some
     (existsb (fun u => String.eqb (User.email u) email)
              (users (tables (yield w)))))),
   log (EvSelect "users") (yield w)).
Proof.
  intros Hon. unfold checkEmail, try_catch, db_findFirst, bind, ret.
  rewrite (db_select_online _ _ _ _ Hon), found_iff_exists. reflexivity.
Qed.



Section SignupFacts.

Variable pbkdf2 : string -> string -> N -> N -> string -> list Byte.byte.




End SignupFacts.



(* ===================================================================== *)
(** * Purchase state machine: properties *)
(* ===================================================================== *)

Lemma transition_found sig now fresh purchaseId st p :
  AccessControl.find_purchase purchaseId st = Some p ->
  AccessControl.transition sig now fresh purchaseId st =
  match AccessControl.next_status (AccessControl.status p) sig with
  | None => (inl AccessControl.InvalidTransition, st)
  | Some s' =>
    let st' :=
      {| AccessControl.purchases :=
           map (fun q => if String.eqb (AccessControl.purchase_id q) purchaseId
                         then AccessControl.set_status s' now q else q)
               (AccessControl.purchases st);
         AccessControl.enrollments :=
           AccessControl.write_enrollment sig now fresh
             (AccessControl.user_id p) (AccessControl.course_id p)
             (AccessControl.enrollments st) |} in
    (inr (AccessControl.set_status s' now p,
          AccessControl.find_enrollment (AccessControl.user_id p)
                                        (AccessControl.course_id p) st'),
     st')
  end.
Proof. intros Hfound. unfold AccessControl.transition. rewrite Hfound. reflexivity. Qed.

(** C6.  For a purchase found in the store: from [pending], [confirmPayment]
    succeeds and leaves it [completed] while [processRefund] fails with
    [InvalidTransition]; from [completed], [processRefund] succeeds and
    leaves it [refunded] while [confirmPayment] fails with
    [InvalidTransition]; from [refunded] both fail with [InvalidTransition].
    Every failing attempt returns the store as it was, purchases and
    enrollments alike. *)
Theorem purchase_transitions_guarded
    (now : Z) (fresh purchaseId : string)
    (st : AccessControl.Store) (p : AccessControl.PurchaseRecord) :
  AccessControl.find_purchase purchaseId st = Some p ->
  (AccessControl.status p = pending ->
   (exists p' e st',
      AccessControl.confirmPayment now fresh purchaseId st
      = (inr (p', e), st') /\
      AccessControl.status p' = completed) /\
   AccessControl.processRefund now fresh purchaseId st
   = (inl AccessControl.InvalidTransition, st)) /\
  (AccessControl.status p = completed ->
   (exists p' e st',
      AccessControl.processRefund now fresh purchaseId st
      = (inr (p', e), st') /\
      AccessControl.status p' = refunded) /\
   AccessControl.confirmPayment now fresh purchaseId st
   = (inl AccessControl.InvalidTransition, st)) /\
  (AccessControl.status p = refunded ->
   AccessControl.confirmPayment now fresh purchaseId st
   = (inl AccessControl.InvalidTransition, st) /\
   AccessControl.processRefund now fresh purchaseId st
   = (inl AccessControl.InvalidTransition, st)) /\
  (forall sig p' e st',
     AccessControl.transition sig now fresh purchaseId st
     = (inr (p', e), st') ->
     (AccessControl.status p = pending /\
      AccessControl.status p' = completed) \/
     (AccessControl.status p = completed /\
      AccessControl.status p' = refunded)).
Proof.
  intros Hfound.
  unfold AccessControl.confirmPayment, AccessControl.processRefund.
  rewrite !(transition_found _ now fresh purchaseId st p Hfound).
  split; [|split; [|split]].
  - intros Hst. rewrite Hst. cbn. split; [|reflexivity].
    do 3 eexists. split; reflexivity.
  - intros Hst. rewrite Hst. cbn. split; [|reflexivity].
    do 3 eexists. split; reflexivity.
  - intros Hst. rewrite Hst. cbn. split; reflexivity.
  - intros sig p' e st' Hrun.
    rewrite (transition_found _ now fresh purchaseId st p Hfound) in Hrun.
    destruct (AccessControl.status p), sig; cbn in Hrun;
      try discriminate Hrun; inversion Hrun; subst; cbn; auto.
Qed.

(** The C6 statement at a store holding the pending purchase [p1]: a refund
    is refused and the store is returned as it was. *)
Lemma purchase_transitions_witness :
  AccessControl.processRefund 20 "e1" "p1" (sample_store pending)
  = (inl AccessControl.InvalidTransition, sample_store pending).
Proof.
  destruct (purchase_transitions_guarded 20 "e1" "p1" (sample_store pending)
              (sample_purchase pending) eq_refl) as [Hpending _].
  destruct (Hpending eq_refl) as [_ Hrefund]. exact Hrefund.
Defined.

(** The walk of section 8: confirm, then refund, and the access that
    follows each. *)
Example purchase_then_refund :
  let st0 := sample_store pending in
  let st1 := snd (AccessControl.confirmPayment 20 "e1" "p1" st0) in
  let st2 := snd (AccessControl.processRefund 30 "e2" "p1" st1) in
  AccessControl.canAccessContent "u1" "c1" st0 = false /\
  map AccessControl.status (AccessControl.purchases st1) = [completed] /\
  AccessControl.canAccessContent "u1" "c1" st1 = true /\
  map AccessControl.status (AccessControl.purchases st2) = [refunded] /\
  AccessControl.canAccessContent "u1" "c1" st2 = false /\
  length (AccessControl.enrollments st2) = 1.
Proof. repeat split. Qed.


(** The signup walk of section 8: [a@x.com] signs up once and gets a public
    row; a second signup for the address is refused. *)
Example signup_once_then_taken :
  let first := createNewUser sample_kdf sample_signup (alone no_tables) in
  let second := createNewUser sample_kdf sample_signup (snd first) in
  match fst first with
  | Returned r =>
    (success r,
     (fun d : PublicUser =>
        (d !! "email", d !! "is_active",
         d !! "hashedPassword", d !! "saltPassword")) <$> data r)
  | Thrown _ => (false, None)
  end
  = (true, Some (Some (JString "a@x.com"), Some (JBoolean true), None, None)) /\
  length (users (tables (snd first))) = 1 /\
  fst second = Returned (fail "Email already registered").
Proof. cbv zeta. repeat split; vm_compute; reflexivity. Qed.

(* ===================================================================== *)
(** * Validation: what is refused before the store is asked *)
(* ===================================================================== *)

Lemma db_select_cases {R} name (tbl : Tables -> list R) p w :
  (offline w = None /\
   db_select name tbl p w
   = (Returned (List.filter p (tbl (tables (yield w)))),
      log (EvSelect name) (yield w))) \/
  (exists e, offline w = Some e /\
   db_select name tbl p w = (Thrown e, log (EvSelect name) (yield w))).
Proof.
  destruct (offline w) as [e|] eqn:Hoff.
  - right. exists e. split; [reflexivity|]. apply db_select_offline. exact Hoff.
  - left. split; [reflexivity|]. apply db_select_online. exact Hoff.
Qed.

Section ValidationFacts.

Variable pbkdf2 : string -> string -> N -> N -> string -> list Byte.byte.

(** X1.  Signup with an empty [full_name], [email] or [password] is refused with
    the all-fields message, whatever the role says, and nothing else
    happens: no query, no random draw, no key derivation. *)
Theorem createNewUser_requires_all_fields
    (signupData : SignupRequest.t) (w : World) :
  SignupRequest.full_name signupData = "" \/
  SignupRequest.email signupData = "" \/
  SignupRequest.password signupData = "" ->
  createNewUser pbkdf2 signupData w
  = (Returned
       (fail "All fields are required: full_name, email, and password"), w).
Proof.
  intros Hempty. unfold createNewUser.
  assert (Hbad : not_string (SignupRequest.full_name signupData)
                 || not_string (SignupRequest.email signupData)
                 || not_string (SignupRequest.password signupData) = true).
  { destruct Hempty as [H|[H|H]]; rewrite H; cbn;
      rewrite ?orb_true_r; reflexivity. }
  rewrite Hbad. reflexivity.
Qed.

(** X2.  Signup with all three fields filled and a role other than [admin] or
    [consumer] is refused with [Invalid user role] before the store is
    asked. *)
Theorem createNewUser_rejects_unknown_role
    (signupData : SignupRequest.t) (w : World) (r : string) :
  SignupRequest.full_name signupData <> "" ->
  SignupRequest.email signupData <> "" ->
  SignupRequest.password signupData <> "" ->
  SignupRequest.role signupData = Some r ->
  r <> "admin" -> r <> "consumer" ->
  createNewUser pbkdf2 signupData w
  = (Returned (fail "Invalid user role"), w).
Proof.
  intros Hn He Hp Hrole Hadmin Hconsumer. unfold createNewUser.
  rewrite (not_string_false _ Hn), (not_string_false _ He),
          (not_string_false _ Hp), Hrole.
  cbn [orb default from_option id]. unfold user_role_of_text.
  apply String.eqb_neq in Hadmin, Hconsumer.
  rewrite Hadmin, Hconsumer. reflexivity.
Qed.

(** X3.  Login with an empty email or password is refused with
    [Email and password are required] and the store is not asked. *)
Theorem loginUser_requires_both_fields
    (loginData : LoginRequest.t) (w : World) :
  LoginRequest.email loginData = "" \/ LoginRequest.password loginData = "" ->
  loginUser pbkdf2 loginData w
  = (Returned (fail "Email and password are required"), w).
Proof.
  intros Hempty. unfold loginUser.
  assert (Hbad : not_string (LoginRequest.email loginData)
                 || not_string (LoginRequest.password loginData) = true).
  { destruct Hempty as [H|H]; rewrite H; cbn; rewrite ?orb_true_r;
      reflexivity. }
  rewrite Hbad. reflexivity.
Qed.

End ValidationFacts.

(** X4.  The enrollment check and the content listing refuse an empty user id or
    course id with the same message, without a query. *)
Theorem enrollment_queries_require_ids (userId courseId : string) (w : World) :
  userId = "" \/ courseId = "" ->
  isUserEnrolled userId courseId w
  = (Returned (fail "User ID and Course ID are required!"), w) /\
  getCourseContent userId courseId w
  = (Returned (fail "User ID and Course ID are required!"), w).
Proof.
  intros Hempty. unfold isUserEnrolled, getCourseContent.
  assert (Hbad : not_string userId || not_string courseId = true).
  { destruct Hempty as [H|H]; rewrite H; cbn; rewrite ?orb_true_r;
      reflexivity. }
  rewrite Hbad. split; reflexivity.
Qed.

Lemma createNewUser_requires_all_fields_witness :
  createNewUser sample_kdf (signup_as "Ada" "a@x.com" "" (Some "root"))
                (alone no_tables)
  = (Returned
       (fail "All fields are required: full_name, email, and password"),
     alone no_tables).
Proof.
  apply (createNewUser_requires_all_fields sample_kdf
           (signup_as "Ada" "a@x.com" "" (Some "root")) (alone no_tables)).
  right. right. reflexivity.
Defined.

Lemma createNewUser_rejects_unknown_role_witness :
  createNewUser sample_kdf (signup_as "Ada" "a@x.com" "secret" (Some "root"))
                (alone no_tables)
  = (Returned (fail "Invalid user role"), alone no_tables).
Proof.
  apply (createNewUser_rejects_unknown_role sample_kdf
           (signup_as "Ada" "a@x.com" "secret" (Some "root"))
           (alone no_tables) "root");
    (reflexivity || discriminate).
Defined.

Lemma loginUser_requires_both_fields_witness :
  loginUser sample_kdf (sample_login "a@x.com" "") (alone sample_users)
  = (Returned (fail "Email and password are required"), alone sample_users).
Proof.
  apply (loginUser_requires_both_fields sample_kdf
           (sample_login "a@x.com" "") (alone sample_users)).
  right. reflexivity.
Defined.

Lemma enrollment_queries_require_ids_witness :
  isUserEnrolled "" "c1" (alone sample_course)
  = (Returned (fail "User ID and Course ID are required!"),
     alone sample_course) /\
  getCourseContent "" "c1" (alone sample_course)
  = (Returned (fail "User ID and Course ID are required!"),
     alone sample_course).
Proof.
  apply (enrollment_queries_require_ids "" "c1" (alone sample_course)).
  left. reflexivity.
Defined.

(* ===================================================================== *)
(** * A store that throws *)
(* ===================================================================== *)

Lemma isUserEnrolled_offline (userId courseId : string) (w : World) (e : Exn) :
  userId <> "" -> courseId <> "" -> offline w = Some e ->
  isUserEnrolled userId courseId w
  = (Returned (fail (String_of_error e)),
     log (EvSelect "course_enrollments") (yield w)).
Proof.
  intros Hu Hc Hoff. unfold isUserEnrolled.
  rewrite (not_string_false _ Hu), (not_string_false _ Hc). cbn [orb].
  unfold try_catch, bind. rewrite (db_select_offline _ _ _ _ e Hoff).
  reflexivity.
Qed.

Lemma checkEmail_offline (email : string) (w : World) (e : Exn) :
  offline w = Some e ->
  checkEmail email w
  = (Returned (fail (exn_message e)), log (EvSelect "users") (yield w)).
Proof.
  intros Hoff. unfold checkEmail, try_catch, db_findFirst, bind.
  rewrite (db_select_offline _ _ _ _ e Hoff). reflexivity.
Qed.

(** X5.  When the store throws, the content listing does not report the store's
    error: the enrollment check has already turned it into a failure, and
    the listing answers [Access denied], after that one query and without
    asking for any content. *)
Theorem getCourseContent_outage_is_access_denied
    (userId courseId : string) (w : World) (e : Exn) :
  userId <> "" -> courseId <> "" -> offline w = Some e ->
  getCourseContent userId courseId w
  = (Returned (fail "Access denied. User is not enrolled in the course."),
     log (EvSelect "course_enrollments") (yield w)).
Proof.
  intros Hu Hc Hoff. unfold getCourseContent.
  rewrite (not_string_false _ Hu), (not_string_false _ Hc). cbn [orb].
  unfold try_catch, bind.
  rewrite (isUserEnrolled_offline _ _ _ e Hu Hc Hoff). reflexivity.
Qed.

Lemma getCourseContent_outage_witness :
  fst (getCourseContent "u1" "c1" (unreachable sample_course))
  = Returned (fail "Access denied. User is not enrolled in the course.").
Proof.
  rewrite (getCourseContent_outage_is_access_denied "u1" "c1"
             (unreachable sample_course) store_down);
    (reflexivity || discriminate).
Defined.

(** X6.  When the store throws, the course list, the course detail and the
    enrollment check each return a failure whose message is [String(error)],
    the error's name, a colon and its message; they do not throw. *)
Theorem course_queries_report_store_error
    (id userId courseId : string) (w : World) (e : Exn) :
  offline w = Some e ->
  id <> "" -> userId <> "" -> courseId <> "" ->
  fst (activeCourse w) = Returned (fail (String_of_error e)) /\
  fst (detailCourse id w) = Returned (fail (String_of_error e)) /\
  fst (isUserEnrolled userId courseId w)
  = Returned (fail (String_of_error e)).
Proof.
  intros Hoff Hid Hu Hc. split; [|split].
  - unfold activeCourse, try_catch, bind.
    rewrite (db_select_offline _ _ _ _ e Hoff). reflexivity.
  - unfold detailCourse. rewrite (not_string_false _ Hid).
    unfold try_catch, bind.
    rewrite (db_select_offline _ _ _ _ e Hoff). reflexivity.
  - rewrite (isUserEnrolled_offline _ _ _ e Hu Hc Hoff). reflexivity.
Qed.

Lemma course_queries_report_store_error_witness :
  fst (activeCourse (unreachable sample_catalog))
  = Returned (fail "Error: connect ECONNREFUSED") /\
  fst (detailCourse "c1" (unreachable sample_catalog))
  = Returned (fail "Error: connect ECONNREFUSED") /\
  fst (isUserEnrolled "u1" "c1" (unreachable sample_catalog))
  = Returned (fail "Error: connect ECONNREFUSED").
Proof.
  apply (course_queries_report_store_error "c1" "u1" "c1"
           (unreachable sample_catalog) store_down);
    (reflexivity || discriminate).
Defined.

Section OutageFacts.

Variable pbkdf2 : string -> string -> N -> N -> string -> list Byte.byte.

(** X7.  When the store throws, signup, login and the lookup by id each return a
    failure carrying the error's bare message, after the one query that
    threw: signup has drawn no salt and derived no key, login has derived
    none either. *)
Theorem auth_queries_report_store_error
    (signupData : SignupRequest.t) (loginData : LoginRequest.t)
    (userId : string) (w : World) (e : Exn) :
  offline w = Some e ->
  SignupRequest.full_name signupData <> "" ->
  SignupRequest.email signupData <> "" ->
  SignupRequest.password signupData <> "" ->
  user_role_of_text (default "consumer" (SignupRequest.role signupData))
  <> None ->
  LoginRequest.email loginData <> "" ->
  LoginRequest.password loginData <> "" ->
  let w' := log (EvSelect "users") (yield w) in
  createNewUser pbkdf2 signupData w = (Returned (fail (exn_message e)), w') /\
  loginUser pbkdf2 loginData w = (Returned (fail (exn_message e)), w') /\
  getUserById userId w = (Returned (fail (exn_message e)), w').
Proof.
  intros Hoff Hn He Hp Hrole Hle Hlp w'. split; [|split].
  - unfold createNewUser.
    rewrite (not_string_false _ Hn), (not_string_false _ He),
            (not_string_false _ Hp). cbn [orb].
    destruct (user_role_of_text _) as [role|]; [|congruence].
    unfold try_catch. unfold bind at 1.
    rewrite (checkEmail_offline _ w e Hoff). reflexivity.
  - unfold loginUser.
    rewrite (not_string_false _ Hle), (not_string_false _ Hlp). cbn [orb].
    unfold try_catch, db_findFirst, bind.
    rewrite (db_select_offline _ _ _ _ e Hoff). reflexivity.
  - unfold getUserById, try_catch, db_findFirst, bind.
    rewrite (db_select_offline _ _ _ _ e Hoff). reflexivity.
Qed.

End OutageFacts.

Lemma auth_queries_report_store_error_witness :
  trace (snd (createNewUser sample_kdf sample_signup (unreachable no_tables)))
  = [EvSelect "users"] /\
  fst (createNewUser sample_kdf sample_signup (unreachable no_tables))
  = Returned (fail "connect ECONNREFUSED").
Proof.
  assert (Hn : SignupRequest.full_name sample_signup <> "") by discriminate.
  assert (He : SignupRequest.email sample_signup <> "") by discriminate.
  assert (Hp : SignupRequest.password sample_signup <> "") by discriminate.
  assert (Hr : user_role_of_text
                 (default "consumer" (SignupRequest.role sample_signup))
               <> None) by discriminate.
  assert (Hle : LoginRequest.email (sample_login "a@x.com" "secret") <> "")
    by discriminate.
  assert (Hlp : LoginRequest.password (sample_login "a@x.com" "secret") <> "")
    by discriminate.
  pose proof (auth_queries_report_store_error sample_kdf sample_signup
                (sample_login "a@x.com" "secret") "u1"
                (unreachable no_tables) store_down
                eq_refl Hn He Hp Hr Hle Hlp) as [Hsignup _].
  rewrite Hsignup. split; reflexivity.
Defined.

(* ===================================================================== *)
(** * Queries that only read *)
(* ===================================================================== *)

(** Splits on whether the next [db_select] of the goal answers or throws. *)
Ltac select_cases :=
  match goal with
  | |- context [db_select ?n ?t ?p ?w] =>
    let e := fresh "e" in
    let Hq := fresh "Hq" in
    destruct (db_select_cases n t p w) as [[_ Hq]|[e [_ Hq]]]; rewrite Hq
  end.

Lemma checkEmail_reads_only (email : string) (w : World) :
  concurrent w = [] ->
  tables (snd (checkEmail email w)) = tables w /\
  rng (snd (checkEmail email w)) = rng w.
Proof.
  intros Halone. unfold checkEmail, try_catch, db_findFirst, bind, ret.
  select_cases; rewrite (yield_alone _ Halone); split; reflexivity.
Qed.

Lemma getUserById_reads_only (userId : string) (w : World) :
  concurrent w = [] ->
  tables (snd (getUserById userId w)) = tables w /\
  rng (snd (getUserById userId w)) = rng w.
Proof.
  intros Halone. unfold getUserById, try_catch, db_findFirst, bind, ret.
  select_cases; rewrite (yield_alone _ Halone); [|split; reflexivity].
  destruct (head _) as [u|]; [|split; reflexivity].
  destruct (negb (User.is_active u)); split; reflexivity.
Qed.

Lemma activeCourse_reads_only (w : World) :
  concurrent w = [] ->
  tables (snd (activeCourse w)) = tables w /\
  rng (snd (activeCourse w)) = rng w.
Proof.
  intros Halone. unfold activeCourse, try_catch, bind, ret.
  select_cases; rewrite (yield_alone _ Halone); split; reflexivity.
Qed.

Lemma detailCourse_reads_only (id : string) (w : World) :
  concurrent w = [] ->
  tables (snd (detailCourse id w)) = tables w /\
  rng (snd (detailCourse id w)) = rng w.
Proof.
  intros Halone. unfold detailCourse.
  destruct (not_string id); [split; reflexivity|].
  unfold try_catch, bind, ret.
  select_cases; rewrite (yield_alone _ Halone); split; reflexivity.
Qed.

Lemma isUserEnrolled_reads_only (userId courseId : string) (w : World) :
  concurrent w = [] ->
  tables (snd (isUserEnrolled userId courseId w)) = tables w /\
  rng (snd (isUserEnrolled userId courseId w)) = rng w.
Proof.
  intros Halone. unfold isUserEnrolled.
  destruct (not_string userId || not_string courseId); [split; reflexivity|].
  unfold try_catch, bind, ret.
  select_cases; rewrite (yield_alone _ Halone); split; reflexivity.
Qed.

Lemma getCourseContent_reads_only (userId courseId : string) (w : World) :
  concurrent w = [] ->
  tables (snd (getCourseContent userId courseId w)) = tables w /\
  rng (snd (getCourseContent userId courseId w)) = rng w.
Proof.
  intros Halone. unfold getCourseContent, isUserEnrolled.
  destruct (not_string userId || not_string courseId); [split; reflexivity|].
  unfold try_catch, bind, ret.
  select_cases; rewrite (yield_alone _ Halone); [|split; reflexivity].
  cbn [success data succeed negb not_boolean orb].
  select_cases; rewrite yield_log, (yield_alone _ Halone); split; reflexivity.
Qed.

Section ReadOnlyFacts.

Variable pbkdf2 : string -> string -> N -> N -> string -> list Byte.byte.

Lemma loginUser_reads_only (loginData : LoginRequest.t) (w : World) :
  concurrent w = [] ->
  tables (snd (loginUser pbkdf2 loginData w)) = tables w /\
  rng (snd (loginUser pbkdf2 loginData w)) = rng w.
Proof.
  intros Halone. unfold loginUser.
  destruct (not_string _ || not_string _); [split; reflexivity|].
  unfold try_catch, db_findFirst, bind, ret.
  select_cases; rewrite (yield_alone _ Halone); [|split; reflexivity].
  destruct (head _) as [u|]; [|split; reflexivity].
  destruct (negb (User.is_active u)); [split; reflexivity|].
  rewrite verifyPassword_run.
  destruct (negb _); split; reflexivity.
Qed.

(** X8.  Login, the lookup by id, the email check and the four course queries
    only read: for a request running alone, whatever the input and whether
    the store answers or throws, every table and the random source are
    afterwards as they were before. *)
Theorem read_queries_leave_store_untouched
    (loginData : LoginRequest.t) (userId email id courseId : string)
    (w : World) :
  concurrent w = [] ->
  let untouched (w' : World) := tables w' = tables w /\ rng w' = rng w in
  untouched (snd (loginUser pbkdf2 loginData w)) /\
  untouched (snd (getUserById userId w)) /\
  untouched (snd (checkEmail email w)) /\
  untouched (snd (activeCourse w)) /\
  untouched (snd (detailCourse id w)) /\
  untouched (snd (isUserEnrolled userId courseId w)) /\
  untouched (snd (getCourseContent userId courseId w)).
Proof.
  intros Halone untouched. subst untouched. cbn beta.
  split; [apply loginUser_reads_only; exact Halone|].
  split; [apply getUserById_reads_only; exact Halone|].
  split; [apply checkEmail_reads_only; exact Halone|].
  split; [apply activeCourse_reads_only; exact Halone|].
  split; [apply detailCourse_reads_only; exact Halone|].
  split; [apply isUserEnrolled_reads_only; exact Halone|].
  apply getCourseContent_reads_only; exact Halone.
Qed.

End ReadOnlyFacts.

Lemma read_queries_leave_store_untouched_witness :
  tables (snd (loginUser sample_kdf (sample_login "a@x.com" "secret")
                         (alone sample_users)))
  = sample_users.
Proof.
  destruct (read_queries_leave_store_untouched sample_kdf
              (sample_login "a@x.com" "secret") "u1" "a@x.com" "c1" "c1"
              (alone sample_users) eq_refl) as [[Hlogin _] _].
  exact Hlogin.
Defined.

(* ===================================================================== *)
(** * Lookups: who is found and what comes back *)
(* ===================================================================== *)

(** The object the rest pattern leaves of a user row: the seven columns
    that are not credentials, with the row's values. *)
Lemma public_row_fields (u : User.t) :
  rest_without ["hashedPassword"; "saltPassword"] (User.to_object u)
  = <["id" := JString (User.id u)]>
    (<["full_name" := JString (User.full_name u)]>
    (<["email" := JString (User.email u)]>
    (<["created_at" := JDate (User.created_at u)]>
    (<["updated_at" := JDate (User.updated_at u)]>
    (<["role" := JString (user_role_text (User.role u))]>
    (<["is_active" := JBoolean (User.is_active u)]> ∅)))))).
Proof.
  unfold rest_without, User.to_object. cbn [foldr].
  rewrite !(delete_insert_ne _ "saltPassword") by discriminate.
  rewrite delete_insert_eq.
  rewrite !(delete_insert_ne _ "saltPassword") by discriminate.
  rewrite delete_empty.
  rewrite !(delete_insert_ne _ "hashedPassword") by discriminate.
  rewrite delete_insert_eq.
  rewrite !(delete_insert_ne _ "hashedPassword") by discriminate.
  rewrite delete_empty. reflexivity.
Qed.

Lemma head_filter_In {R} (p : R -> bool) (l : list R) (r : R) :
  head (List.filter p l) = Some r -> In r l /\ p r = true.
Proof.
  intros Hhead.
  assert (Hin : In r (List.filter p l)).
  { destruct (List.filter p l) as [|x rest]; [discriminate|].
    injection Hhead as ->. left. reflexivity. }
  apply filter_In in Hin. exact Hin.
Qed.

Lemma getUserById_run (userId : string) (w : World) :
  offline w = None ->
  getUserById userId w =
  (match head (List.filter (fun u => String.eqb (User.id u) userId)
                           (users (tables (yield w)))) with
   | None => Returned (fail "User not found")
   | Some user =>
     if User.is_active user then
       Returned (succeed (Some
         (rest_without ["hashedPassword"; "saltPassword"]
                       (User.to_object user))))
     else Returned (fail "Account is deactivated")
   end, log (EvSelect "users") (yield w)).
Proof.
  intros Hon. unfold getUserById, try_catch, db_findFirst, bind, ret.
  rewrite (db_select_online _ _ _ _ Hon).
  destruct (head _) as [u|]; [|reflexivity].
  destruct (User.is_active u); reflexivity.
Qed.

(** X9.  While the store answers, the lookup by id makes one query and gives:
    [User not found] when no row has the id, [Account is deactivated] when
    the row is inactive, and otherwise a success with the row minus its two
    credential properties.  The id is not validated: an empty id is looked
    up like any other. *)
Theorem getUserById_outcomes (userId : string) (w : World) :
  let found := head (List.filter (fun u => String.eqb (User.id u) userId)
                                 (users (tables (yield w)))) in
  let result := fst (getUserById userId w) in
  offline w = None ->
  (found = None -> result = Returned (fail "User not found")) /\
  (forall u, found = Some u -> User.is_active u = false ->
   result = Returned (fail "Account is deactivated")) /\
  (forall u, found = Some u -> User.is_active u = true ->
   result = Returned (succeed (Some
     (rest_without ["hashedPassword"; "saltPassword"] (User.to_object u))))) /\
  trace (snd (getUserById userId w)) = EvSelect "users" :: trace w.
Proof.
  intros found result Hon. subst result.
  rewrite (getUserById_run userId w Hon). fold found. cbn [fst snd trace log].
  rewrite trace_yield. repeat split.
  - intros ->. reflexivity.
  - intros u -> ->. reflexivity.
  - intros u -> ->. reflexivity.
Qed.

Lemma getUserById_outcomes_witness :
  fst (getUserById "u2" (alone sample_users))
  = Returned (fail "Account is deactivated") /\
  fst (getUserById "" (alone sample_users))
  = Returned (fail "User not found").
Proof.
  destruct (getUserById_outcomes "u2" (alone sample_users) eq_refl)
    as (_ & Hinactive & _).
  destruct (getUserById_outcomes "" (alone sample_users) eq_refl)
    as (Hnone & _).
  split.
  - apply (Hinactive (sample_user "u2" "b@x.com" "hunter2" false));
      reflexivity.
  - apply Hnone. reflexivity.
Defined.

Lemma checkEmail_exact_helper (email : string) (us : list User.t) :
  existsb (fun u => String.eqb (User.email u) email) us = true <->
  exists u, In u us /\ User.email u = email.
Proof.
  rewrite existsb_exists. split; intros [u [Hin Heq]]; exists u;
    (split; [exact Hin|]); apply String.eqb_eq; exact Heq.
Qed.

(** X10.  While the store answers, the email check returns a success whose data is
    [true] exactly when some row's email equals the given text character for
    character (so letter case matters); it makes one query. *)
Theorem checkEmail_exact_match (email : string) (w : World) :
  offline w = None ->
  exists b,
    checkEmail email w
    = (Returned (succeed (Some b)), log (EvSelect "users") (yield w)) /\
    (b = true <->
     exists u, In u (users (tables (yield w))) /\ User.email u = email).
Proof.
  intros Hon. eexists. split; [apply (checkEmail_run email w Hon)|].
  apply checkEmail_exact_helper.
Qed.

Lemma checkEmail_exact_match_witness :
  fst (checkEmail "A@x.com" (alone sample_users))
  = Returned (succeed (Some false)) /\
  fst (checkEmail "a@x.com" (alone sample_users))
  = Returned (succeed (Some true)).
Proof.
  destruct (checkEmail_exact_match "A@x.com" (alone sample_users) eq_refl)
    as [b1 [Hrun1 Hiff1]].
  destruct (checkEmail_exact_match "a@x.com" (alone sample_users) eq_refl)
    as [b2 [Hrun2 Hiff2]].
  rewrite Hrun1, Hrun2. cbn [fst]. split.
  - destruct b1; [|reflexivity]. exfalso.
    destruct (proj1 Hiff1 eq_refl) as [u [Hin Heq]].
    cbn in Hin. destruct Hin as [<-|[<-|[]]]; discriminate Heq.
  - rewrite (proj2 Hiff2); [reflexivity|].
    exists (sample_user "u1" "a@x.com" "secret" true).
    split; [left; reflexivity | reflexivity].
Defined.

Lemma not_string_or_false (a b : string) :
  not_string a || not_string b = false -> a <> "" /\ b <> "".
Proof.
  intros H. apply orb_false_iff in H as [Ha Hb].
  unfold not_string in *. split; apply String.eqb_neq; assumption.
Qed.

Section LoginMoreFacts.

Variable pbkdf2 : string -> string -> N -> N -> string -> list Byte.byte.

Lemma loginUser_offline (loginData : LoginRequest.t) (w : World) (e : Exn) :
  LoginRequest.email loginData <> "" ->
  LoginRequest.password loginData <> "" ->
  offline w = Some e ->
  loginUser pbkdf2 loginData w
  = (Returned (fail (exn_message e)), log (EvSelect "users") (yield w)).
Proof.
  intros He Hp Hoff. unfold loginUser.
  rewrite (not_string_false _ He), (not_string_false _ Hp). cbn [orb].
  unfold try_catch, db_findFirst, bind.
  rewrite (db_select_offline _ _ _ _ e Hoff). reflexivity.
Qed.

(** X11.  A login that succeeds was earned: the store held an active row with
    exactly the given email whose stored hash is the hex text of the key
    derived from the given password and the row's salt, and the data handed
    back is that row's seven public columns.  Neither field of the request
    was empty. *)
Theorem loginUser_success_means_verified
    (loginData : LoginRequest.t) (w w' : World)
    (r : DbResult PublicUser) :
  let email := LoginRequest.email loginData in
  let password := LoginRequest.password loginData in
  loginUser pbkdf2 loginData w = (Returned r, w') ->
  success r = true ->
  email <> "" /\ password <> "" /\
  exists u,
    In u (users (tables (yield w))) /\
    User.email u = email /\
    User.is_active u = true /\
    toString_hex (pbkdf2 password (User.saltPassword u) 100000 64 "sha512")
    = User.hashedPassword u /\
    data r
    = Some (<["id" := JString (User.id u)]>
           (<["full_name" := JString (User.full_name u)]>
           (<["email" := JString (User.email u)]>
           (<["created_at" := JDate (User.created_at u)]>
           (<["updated_at" := JDate (User.updated_at u)]>
           (<["role" := JString (user_role_text (User.role u))]>
           (<["is_active" := JBoolean (User.is_active u)]> ∅))))))).
Proof.
  intros email password Hrun Hok.
  destruct (not_string email || not_string password) eqn:Hvalid.
  { unfold loginUser in Hrun. fold email password in Hrun.
    rewrite Hvalid in Hrun. inversion Hrun; subst. discriminate Hok. }
  apply not_string_or_false in Hvalid as [He Hp].
  split; [exact He|]. split; [exact Hp|].
  destruct (offline w) as [e|] eqn:Hoff.
  { rewrite (loginUser_offline loginData w e He Hp Hoff) in Hrun.
    inversion Hrun; subst. discriminate Hok. }
  rewrite (loginUser_run pbkdf2 loginData w He Hp Hoff) in Hrun.
  fold email password in Hrun.
  destruct (head _) as [u|] eqn:Hfound;
    [|inversion Hrun; subst; discriminate Hok].
  destruct (User.is_active u) eqn:Hactive;
    [|inversion Hrun; subst; discriminate Hok].
  destruct (String.eqb _ _) eqn:Hhash;
    [|inversion Hrun; subst; discriminate Hok].
  apply head_filter_In in Hfound as [Hin Hemail].
  exists u. split; [exact Hin|].
  split; [apply String.eqb_eq; exact Hemail|].
  split; [exact Hactive|].
  split; [apply String.eqb_eq; exact Hhash|].
  cbv zeta in Hrun. injection Hrun as Hr _. rewrite <- Hr.
  cbn [data succeed]. exact (f_equal Some (public_row_fields u)).
Qed.


End LoginMoreFacts.

Lemma loginUser_success_means_verified_witness :
  exists u,
    In u (users sample_users) /\ User.email u = "a@x.com" /\
    User.is_active u = true.
Proof.
  destruct (loginUser_success_means_verified sample_kdf
              (sample_login "a@x.com" "secret") (alone sample_users)
              (snd (loginUser sample_kdf (sample_login "a@x.com" "secret")
                              (alone sample_users)))
              (succeed (Some
                 (rest_without ["hashedPassword"; "saltPassword"]
                    (User.to_object
                       (sample_user "u1" "a@x.com" "secret" true)))))
              eq_refl eq_refl)
    as (_ & _ & u & Hin & Hemail & Hactive & _).
  exists u. split; [exact Hin|]. split; [exact Hemail | exact Hactive].
Defined.



(* ===================================================================== *)
(** * Signup: what is written *)
(* ===================================================================== *)

Lemma NoDup_snoc {A} (l : list A) (x : A) :
  NoDup l -> ~ In x l -> NoDup (l ++ [x]).
Proof.
  intros Hnd Hnot. apply NoDup_app. split; [exact Hnd|].
  split; [|apply NoDup_singleton].
  intros y Hy Hx. apply list_elem_of_singleton in Hx. subst y.
  apply Hnot. apply list_elem_of_In. exact Hy.
Qed.

Lemma existsb_false_not_In {R} (f : R -> string) (v : string) (l : list R) :
  existsb (fun r => String.eqb (f r) v) l = false -> ~ In v (map f l).
Proof.
  intros Hnone Hin. apply in_map_iff in Hin as [r [Heq Hin]].
  assert (Hsome : existsb (fun r => String.eqb (f r) v) l = true).
  { apply existsb_exists. exists r. split; [exact Hin|].
    apply String.eqb_eq. exact Heq. }
  congruence.
Qed.

Section SignupWrites.

Variable pbkdf2 : string -> string -> N -> N -> string -> list Byte.byte.

(** A signup running alone that passes validation, while the store answers:
    what it returns and writes, by what the table holds. *)
Lemma createNewUser_run_alone
    (signupData : SignupRequest.t) (role : user_role_enum) (w : World) :
  let email := SignupRequest.email signupData in
  let row := signup_row pbkdf2 signupData role w in
  let us := users (tables w) in
  SignupRequest.full_name signupData <> "" ->
  email <> "" ->
  SignupRequest.password signupData <> "" ->
  user_role_of_text (default "consumer" (SignupRequest.role signupData))
  = Some role ->
  offline w = None -> concurrent w = [] ->
  exists w',
    createNewUser pbkdf2 signupData w
    = (if existsb (fun u => String.eqb (User.email u) email) us
       then Returned (fail "Email already registered")
       else if existsb (fun u => String.eqb (User.id u) (User.id row)) us
       then Returned (fail (exn_message (unique_violation "users_pkey")))
       else Returned (succeed (Some
              (rest_without ["hashedPassword"; "saltPassword"]
                            (User.to_object row)))),
       w') /\
    tables w'
    = (if existsb (fun u => String.eqb (User.email u) email) us
          || existsb (fun u => String.eqb (User.id u) (User.id row)) us
       then tables w
       else with_users (us ++ [row]) (tables w)) /\
    offline w' = None /\ concurrent w' = [] /\
    (existsb (fun u => String.eqb (User.email u) email) us = false ->
     trace w'
     = EvInsert "users" :: EvRandomBytes 16
       :: EvPbkdf2 (SignupRequest.password signupData) (next_salt w)
                   100000 64 "sha512"
       :: EvRandomBytes 16 :: EvSelect "users" :: trace w).
Proof.
  intros email row us Hn He Hp Hrole Hon Halone.
  unfold createNewUser. fold email.
  rewrite (not_string_false _ Hn), (not_string_false _ He),
          (not_string_false _ Hp), Hrole. cbn [orb].
  unfold try_catch. unfold bind at 1.
  rewrite (checkEmail_run email w Hon), (yield_alone _ Halone).
  fold us. cbn [success data succeed negb].
  destruct (existsb (fun u => String.eqb (User.email u) email) us) eqn:Htaken.
  { cbn. eexists. split; [reflexivity|]. cbn.
    repeat split; try assumption. discriminate. }
  cbn [not_boolean negb orb].
  unfold bind at 1. rewrite createPasswordHash_run.
  unfold randomUUID, bind, ret, randomBytes, db_insert_user.
  cbn [rng log set_rng entropy drawn offline tables NewUser.id NewUser.email
       hashedPassword salt].
  repeat (rewrite yield_log || rewrite yield_set_rng).
  rewrite (yield_alone _ Halone).
  cbn [rng log set_rng entropy drawn offline tables now].
  rewrite Hon. fold us. fold email. rewrite Htaken.
  change (uuid_text (uuid_v4_bytes
            (map (fun i => entropy (rng w) (drawn (rng w) + 16 + i))
                 (seq 0 16)))) with (User.id row).
  destruct (existsb (fun u => String.eqb (User.id u) (User.id row)) us)
    eqn:Hclash.
  - eexists. split; [reflexivity|]. cbn.
    repeat split; first [assumption | reflexivity | intros _; reflexivity].
  - eexists. split; [reflexivity|]. cbn.
    repeat split; first [assumption | reflexivity | intros _; reflexivity].
Qed.

End SignupWrites.

Section SignupProperties.

Variable pbkdf2 : string -> string -> N -> N -> string -> list Byte.byte.

Lemma createNewUser_offline
    (signupData : SignupRequest.t) (role : user_role_enum) (w : World)
    (e : Exn) :
  SignupRequest.full_name signupData <> "" ->
  SignupRequest.email signupData <> "" ->
  SignupRequest.password signupData <> "" ->
  user_role_of_text (default "consumer" (SignupRequest.role signupData))
  = Some role ->
  offline w = Some e ->
  createNewUser pbkdf2 signupData w
  = (Returned (fail (exn_message e)), log (EvSelect "users") (yield w)).
Proof.
  intros Hn He Hp Hrole Hoff. unfold createNewUser.
  rewrite (not_string_false _ Hn), (not_string_false _ He),
          (not_string_false _ Hp), Hrole. cbn [orb].
  unfold try_catch. unfold bind at 1.
  rewrite (checkEmail_offline _ w e Hoff). reflexivity.
Qed.

(** Every signup running alone either fails and leaves the tables alone, or
    succeeds and appends its row, whose email and id were not in the
    table. *)
Lemma createNewUser_footprint (signupData : SignupRequest.t) (w : World) :
  concurrent w = [] ->
  exists r w',
    createNewUser pbkdf2 signupData w = (Returned r, w') /\
    ((success r = false /\ tables w' = tables w) \/
     (success r = true /\
      exists role,
        tables w'
        = with_users (users (tables w)
                      ++ [signup_row pbkdf2 signupData role w]) (tables w) /\
        existsb (fun u => String.eqb (User.email u)
                            (SignupRequest.email signupData))
                (users (tables w)) = false /\
        existsb (fun u => String.eqb (User.id u) (next_user_id w))
                (users (tables w)) = false)).
Proof.
  intros Halone.
  destruct (not_string (SignupRequest.full_name signupData)
            || not_string (SignupRequest.email signupData)
            || not_string (SignupRequest.password signupData)) eqn:Hvalid.
  { unfold createNewUser. rewrite Hvalid. do 2 eexists.
    split; [reflexivity|]. left. split; reflexivity. }
  apply orb_false_iff in Hvalid as [Hvalid Hp].
  apply not_string_or_false in Hvalid as [Hn He].
  assert (Hp' : SignupRequest.password signupData <> "").
  { apply String.eqb_neq. exact Hp. }
  destruct (user_role_of_text
              (default "consumer" (SignupRequest.role signupData)))
    as [role|] eqn:Hrole.
  2: { unfold createNewUser.
       rewrite (not_string_false _ Hn), (not_string_false _ He),
               (not_string_false _ Hp'), Hrole.
       do 2 eexists. split; [reflexivity|]. left. split; reflexivity. }
  destruct (offline w) as [e|] eqn:Hoff.
  { rewrite (createNewUser_offline signupData role w e Hn He Hp' Hrole Hoff).
    do 2 eexists. split; [reflexivity|]. left.
    rewrite (yield_alone _ Halone). split; reflexivity. }
  destruct (createNewUser_run_alone pbkdf2 signupData role w
              Hn He Hp' Hrole Hoff Halone)
    as [w' [Hrun [Htables _]]].
  rewrite Hrun. clear Hrun.
  destruct (existsb (fun u => String.eqb (User.email u) _) _) eqn:Htaken.
  { do 2 eexists. split; [reflexivity|].
    left. split; [reflexivity | exact Htables]. }
  destruct (existsb (fun u => String.eqb (User.id u) _) _) eqn:Hclash.
  { do 2 eexists. split; [reflexivity|].
    left. split; [reflexivity | exact Htables]. }
  do 2 eexists. split; [reflexivity|].
  right. split; [reflexivity|]. exists role.
  split; [exact Htables|]. split; reflexivity.
Qed.

(** X15.  A signup running alone writes exactly when it reports success: a failed
    signup leaves every table as it was; a successful one appends one row to
    [users], active and with the requested email, and touches no other
    table. *)
Theorem createNewUser_writes_iff_success
    (signupData : SignupRequest.t) (w : World) :
  concurrent w = [] ->
  exists r w',
    createNewUser pbkdf2 signupData w = (Returned r, w') /\
    (success r = false -> tables w' = tables w) /\
    (success r = true ->
     exists row,
       users (tables w') = users (tables w) ++ [row] /\
       User.email row = SignupRequest.email signupData /\
       User.is_active row = true /\
       courses (tables w') = courses (tables w) /\
       course_content (tables w') = course_content (tables w) /\
       purchase_history (tables w') = purchase_history (tables w) /\
       course_enrollments (tables w') = course_enrollments (tables w)).
Proof.
  intros Halone.
  destruct (createNewUser_footprint signupData w Halone)
    as [r [w' [Hrun [[Hfail Hsame]|[Hok [role [Htables _]]]]]]];
    exists r, w'; (split; [exact Hrun|]); split.
  - intros _. exact Hsame.
  - intros Hyes. congruence.
  - intros Hno. congruence.
  - intros _. exists (signup_row pbkdf2 signupData role w).
    rewrite Htables. repeat split.
Qed.

(** X16.  Signup keeps the keys of [users] unique: if no two rows share an email
    and no two share an id before a signup running alone, the same holds
    after it, whatever the request and the random draw. *)
Theorem createNewUser_keeps_keys_unique
    (signupData : SignupRequest.t) (w : World) :
  concurrent w = [] ->
  NoDup (map User.email (users (tables w))) ->
  NoDup (map User.id (users (tables w))) ->
  let w' := snd (createNewUser pbkdf2 signupData w) in
  NoDup (map User.email (users (tables w'))) /\
  NoDup (map User.id (users (tables w'))).
Proof.
  intros Halone Hemails Hids w'. subst w'.
  destruct (createNewUser_footprint signupData w Halone)
    as [r [w' [Hrun [[_ Hsame]|[_ [role [Htables [Hfree Hfresh]]]]]]]];
    rewrite Hrun; cbn [snd].
  - rewrite Hsame. split; assumption.
  - rewrite Htables. cbn [users with_users]. rewrite !map_app. cbn [map].
    split; apply NoDup_snoc; try assumption.
    + apply (existsb_false_not_In User.email). exact Hfree.
    + apply (existsb_false_not_In User.id). exact Hfresh.
Qed.

End SignupProperties.

Lemma existsb_false_all {R} (p : R -> bool) (l : list R) :
  existsb p l = false -> forall r, In r l -> p r = false.
Proof.
  intros Hnone r Hin. destruct (p r) eqn:Hp; [|reflexivity].
  assert (existsb p l = true) by (apply existsb_exists; eauto). congruence.
Qed.

Section SignupThenLogin.

Variable pbkdf2 : string -> string -> N -> N -> string -> list Byte.byte.

(** X13.  A signup running alone that passes validation, for an email and a drawn
    id not yet in the table, while the store answers: it succeeds; the data
    is the new row's seven public columns (the drawn id, the name and email
    as given, both timestamps the store's clock, the role asked for or
    [consumer] when none was, active); and [users] has grown by that one
    row. *)
Theorem createNewUser_creates_active_row
    (signupData : SignupRequest.t) (role : user_role_enum) (w : World) :
  SignupRequest.full_name signupData <> "" ->
  SignupRequest.email signupData <> "" ->
  SignupRequest.password signupData <> "" ->
  user_role_of_text (default "consumer" (SignupRequest.role signupData))
  = Some role ->
  offline w = None -> concurrent w = [] ->
  existsb (fun u => String.eqb (User.email u) (SignupRequest.email signupData))
          (users (tables w)) = false ->
  existsb (fun u => String.eqb (User.id u) (next_user_id w))
          (users (tables w)) = false ->
  fst (createNewUser pbkdf2 signupData w)
  = Returned (succeed (Some
      (<["id" := JString (next_user_id w)]>
      (<["full_name" := JString (SignupRequest.full_name signupData)]>
      (<["email" := JString (SignupRequest.email signupData)]>
      (<["created_at" := JDate (now w)]>
      (<["updated_at" := JDate (now w)]>
      (<["role" := JString (user_role_text role)]>
      (<["is_active" := JBoolean true]> ∅))))))))) /\
  users (tables (snd (createNewUser pbkdf2 signupData w)))
  = users (tables w) ++ [signup_row pbkdf2 signupData role w].
Proof.
  intros Hn He Hp Hrole Hon Halone Hfree Hfresh.
  destruct (createNewUser_run_alone pbkdf2 signupData role w
              Hn He Hp Hrole Hon Halone) as [w' [Hrun [Htables _]]].
  change (User.id (signup_row pbkdf2 signupData role w))
    with (next_user_id w) in Hrun, Htables.
  rewrite Hfree, Hfresh in Hrun, Htables. rewrite Hrun. cbn [fst snd].
  rewrite Htables, public_row_fields. split; reflexivity.
Qed.

(** X14.  Login right after signup: under the same conditions, logging in with the
    email and password just signed up with, on the store the signup left,
    succeeds and returns the very result the signup returned. *)
Theorem login_after_signup_returns_same_user
    (signupData : SignupRequest.t) (role : user_role_enum) (w : World) :
  SignupRequest.full_name signupData <> "" ->
  SignupRequest.email signupData <> "" ->
  SignupRequest.password signupData <> "" ->
  user_role_of_text (default "consumer" (SignupRequest.role signupData))
  = Some role ->
  offline w = None -> concurrent w = [] ->
  existsb (fun u => String.eqb (User.email u) (SignupRequest.email signupData))
          (users (tables w)) = false ->
  existsb (fun u => String.eqb (User.id u) (next_user_id w))
          (users (tables w)) = false ->
  let signup := createNewUser pbkdf2 signupData w in
  let login :=
    loginUser pbkdf2
      {| LoginRequest.email := SignupRequest.email signupData;
         LoginRequest.password := SignupRequest.password signupData |}
      (snd signup) in
  fst login = fst signup /\
  exists d, fst signup = Returned (succeed (Some d)).
Proof.
  intros Hn He Hp Hrole Hon Halone Hfree Hfresh signup login.
  subst login signup.
  destruct (createNewUser_run_alone pbkdf2 signupData role w
              Hn He Hp Hrole Hon Halone)
    as [w' [Hrun [Htables [Hon' [Halone' _]]]]].
  change (User.id (signup_row pbkdf2 signupData role w))
    with (next_user_id w) in Hrun, Htables.
  rewrite Hfree, Hfresh in Hrun, Htables. rewrite Hrun. cbn [fst snd].
  split; [|eexists; reflexivity].
  set (loginData :=
         {| LoginRequest.email := SignupRequest.email signupData;
            LoginRequest.password := SignupRequest.password signupData |}).
  assert (Hle : LoginRequest.email loginData <> "") by exact He.
  assert (Hlp : LoginRequest.password loginData <> "") by exact Hp.
  rewrite (loginUser_run pbkdf2 loginData w' Hle Hlp Hon').
  subst loginData. cbn [LoginRequest.email LoginRequest.password].
  cbn [orb] in Htables.
  rewrite (yield_alone _ Halone'), Htables. cbn [users with_users].
  rewrite List.filter_app, (filter_none _ _ (existsb_false_all _ _ Hfree)).
  cbn [List.filter app signup_row User.email].
  rewrite String.eqb_refl. cbn [head User.is_active User.hashedPassword
                                User.saltPassword].
  rewrite String.eqb_refl. reflexivity.
Qed.

End SignupThenLogin.

Lemma sample_users_keys_unique :
  NoDup (map User.email (users (tables (alone sample_users)))) /\
  NoDup (map User.id (users (tables (alone sample_users)))).
Proof.
  split; cbn;
    repeat (constructor;
            [rewrite list_elem_of_In; cbn; intuition discriminate|]);
    constructor.
Qed.

Lemma createNewUser_writes_iff_success_witness :
  exists r w',
    createNewUser sample_kdf sample_signup (alone sample_users)
    = (Returned r, w') /\
    (success r = false -> tables w' = tables (alone sample_users)).
Proof.
  destruct (createNewUser_writes_iff_success sample_kdf sample_signup
              (alone sample_users) eq_refl) as [r [w' [Hrun [Hfail _]]]].
  exists r, w'. split; [exact Hrun | exact Hfail].
Defined.

Lemma createNewUser_keeps_keys_unique_witness :
  NoDup (map User.email
           (users (tables (snd (createNewUser sample_kdf
                                  (signup_as "Cy" "c@x.com" "pw" None)
                                  (alone sample_users)))))) /\
  NoDup (map User.id
           (users (tables (snd (createNewUser sample_kdf
                                  (signup_as "Cy" "c@x.com" "pw" None)
                                  (alone sample_users)))))).
Proof.
  exact (createNewUser_keeps_keys_unique sample_kdf
           (signup_as "Cy" "c@x.com" "pw" None) (alone sample_users)
           eq_refl (proj1 sample_users_keys_unique)
           (proj2 sample_users_keys_unique)).
Defined.

Lemma createNewUser_creates_active_row_witness :
  length (users (tables (snd (createNewUser sample_kdf
                                (signup_as "Cy" "c@x.com" "pw" (Some "admin"))
                                (alone sample_users)))))
  = 3.
Proof.
  assert (Hn : SignupRequest.full_name
                 (signup_as "Cy" "c@x.com" "pw" (Some "admin")) <> "")
    by discriminate.
  assert (He : SignupRequest.email
                 (signup_as "Cy" "c@x.com" "pw" (Some "admin")) <> "")
    by discriminate.
  assert (Hp : SignupRequest.password
                 (signup_as "Cy" "c@x.com" "pw" (Some "admin")) <> "")
    by discriminate.
  destruct (createNewUser_creates_active_row sample_kdf
              (signup_as "Cy" "c@x.com" "pw" (Some "admin")) admin
              (alone sample_users) Hn He Hp eq_refl eq_refl eq_refl
              eq_refl eq_refl) as [_ Husers].
  rewrite Husers. reflexivity.
Defined.

Lemma login_after_signup_witness :
  fst (loginUser sample_kdf (sample_login "a@x.com" "secret")
         (snd (createNewUser sample_kdf sample_signup (alone no_tables))))
  = fst (createNewUser sample_kdf sample_signup (alone no_tables)).
Proof.
  assert (Hn : SignupRequest.full_name sample_signup <> "") by discriminate.
  assert (He : SignupRequest.email sample_signup <> "") by discriminate.
  assert (Hp : SignupRequest.password sample_signup <> "") by discriminate.
  destruct (login_after_signup_returns_same_user sample_kdf sample_signup
              consumer (alone no_tables) Hn He Hp eq_refl eq_refl eq_refl
              eq_refl eq_refl) as [Hsame _].
  exact Hsame.
Defined.

(* ===================================================================== *)
(** * Course queries: what is listed *)
(* ===================================================================== *)

Lemma head_filter_unique_key {R} (key : R -> string) (l : list R) (c : R) :
  NoDup (map key l) -> In c l ->
  head (List.filter (fun r => String.eqb (key r) (key c)) l) = Some c.
Proof.
  induction l as [|x l IH]; intros Hnd Hin; [destruct Hin|].
  cbn [map] in Hnd. apply NoDup_cons in Hnd as [Hx Hnd].
  cbn [List.filter]. destruct Hin as [->|Hin].
  - rewrite String.eqb_refl. reflexivity.
  - destruct (String.eqb (key x) (key c)) eqn:Heq.
    + exfalso. apply Hx. apply String.eqb_eq in Heq. rewrite Heq.
      apply list_elem_of_In. apply in_map. exact Hin.
    + apply IH; assumption.
Qed.

Lemma getCourseContent_run (userId courseId : string) (w : World) :
  userId <> "" -> courseId <> "" -> offline w = None ->
  getCourseContent userId courseId w =
  (Returned (succeed (Some
     (List.filter
        (fun c => match Content.course_id c with
                  | Some cid => String.eqb cid courseId
                  | None => false
                  end)
        (course_content (tables (yield (yield w))))))),
   log (EvSelect "course_content")
       (log (EvSelect "course_enrollments") (yield (yield w)))).
Proof.
  intros Hu Hc Hon. unfold getCourseContent.
  rewrite (not_string_false _ Hu), (not_string_false _ Hc). cbn [orb].
  unfold try_catch at 1. unfold bind at 1.
  rewrite (isUserEnrolled_always_true _ _ _ Hu Hc Hon).
  cbn [success data succeed negb not_boolean orb].
  unfold bind. rewrite db_select_online.
  - rewrite yield_log. reflexivity.
  - cbn. rewrite offline_yield. exact Hon.
Qed.

(** X17.  While the store answers, the course list is a success holding the
    courses whose [is_deleted] is false, all of them and no others, in the
    order of the table; an empty table gives a success with an empty
    list. *)
Theorem activeCourse_lists_live_courses (w : World) :
  offline w = None ->
  exists l,
    fst (activeCourse w) = Returned (succeed (Some l)) /\
    l = List.filter (fun c => negb (Course.is_deleted c))
                    (courses (tables (yield w))) /\
    (forall c, In c l <->
               In c (courses (tables (yield w))) /\
               Course.is_deleted c = false) /\
    (courses (tables (yield w)) = [] -> l = []).
Proof.
  intros Hon. eexists. unfold activeCourse, try_catch, bind, ret.
  rewrite (db_select_online _ _ _ _ Hon). cbn [fst].
  split; [reflexivity|]. split; [|split].
  - apply filter_ext. intros c. destruct (Course.is_deleted c); reflexivity.
  - intros c. rewrite filter_In.
    destruct (Course.is_deleted c); cbn; intuition congruence.
  - intros ->. reflexivity.
Qed.

Lemma activeCourse_lists_live_courses_witness :
  exists l,
    fst (activeCourse (alone sample_catalog)) = Returned (succeed (Some l)) /\
    map Course.id l = ["c1"].
Proof.
  destruct (activeCourse_lists_live_courses (alone sample_catalog) eq_refl)
    as [l [Hrun [Hl _]]].
  exists l. split; [exact Hrun|]. rewrite Hl. reflexivity.
Defined.

(** X18.  The course detail does not look at [is_deleted].  For a request running
    alone with a non-empty id, while the store answers and course ids are
    unique: a course with that id is returned as the data of a success, and
    when that course is soft-deleted the course list of the same store
    leaves it out. *)
Theorem detailCourse_serves_soft_deleted
    (id : string) (w : World) (c : Course.t) :
  id <> "" -> offline w = None -> concurrent w = [] ->
  NoDup (map Course.id (courses (tables w))) ->
  In c (courses (tables w)) -> Course.id c = id ->
  fst (detailCourse id w) = Returned (succeed (Some c)) /\
  (Course.is_deleted c = true ->
   exists l, fst (activeCourse w) = Returned (succeed (Some l)) /\ ~ In c l).
Proof.
  intros Hid Hon Halone Hnd Hin Hc. split.
  - unfold detailCourse. rewrite (not_string_false _ Hid).
    unfold try_catch, bind, ret. rewrite (db_select_online _ _ _ _ Hon).
    rewrite (yield_alone _ Halone). cbn [fst]. subst id.
    rewrite (head_filter_unique_key Course.id _ c Hnd Hin). reflexivity.
  - intros Hdel. eexists. unfold activeCourse, try_catch, bind, ret.
    rewrite (db_select_online _ _ _ _ Hon). cbn [fst].
    split; [reflexivity|]. rewrite filter_In, Hdel. cbn.
    intros [_ Hfalse]. discriminate Hfalse.
Qed.

Lemma sample_catalog_ids_unique :
  NoDup (map Course.id (courses (tables (alone sample_catalog)))).
Proof.
  cbn;
    repeat (constructor;
            [rewrite list_elem_of_In; cbn; intuition discriminate|]);
    constructor.
Qed.

Lemma detailCourse_serves_soft_deleted_witness :
  fst (detailCourse "c2" (alone sample_catalog))
  = Returned (succeed (Some (sample_course_row "c2" "Retired" true))).
Proof.
  destruct (detailCourse_serves_soft_deleted "c2" (alone sample_catalog)
              (sample_course_row "c2" "Retired" true))
    as [Hdetail _].
  - discriminate.
  - reflexivity.
  - reflexivity.
  - exact sample_catalog_ids_unique.
  - right. left. reflexivity.
  - reflexivity.
  - exact Hdetail.
Defined.

(** X19.  While the store answers, the content listing never refuses: for any
    non-empty user id and course id it succeeds after two queries, the
    enrollment lookup and then the content select, whatever the enrollments
    table holds, be it no row for the pair or a row with access revoked. *)
Theorem getCourseContent_never_denies_while_store_answers
    (userId courseId : string) (w : World) :
  userId <> "" -> courseId <> "" -> offline w = None ->
  exists rows w',
    getCourseContent userId courseId w
    = (Returned (succeed (Some rows)), w') /\
    trace w'
    = EvSelect "course_content" :: EvSelect "course_enrollments" :: trace w.
Proof.
  intros Hu Hc Hon. do 2 eexists.
  split; [apply (getCourseContent_run _ _ _ Hu Hc Hon)|].
  cbn [trace log]. rewrite !trace_yield. reflexivity.
Qed.

Lemma getCourseContent_never_denies_witness :
  spec_canAccessContent "stranger" "c1" sample_course = false /\
  exists rows w',
    getCourseContent "stranger" "c1" (alone sample_course)
    = (Returned (succeed (Some rows)), w').
Proof.
  split; [reflexivity|].
  assert (Hu : "stranger" <> "") by discriminate.
  assert (Hc : "c1" <> "") by discriminate.
  destruct (getCourseContent_never_denies_while_store_answers
              "stranger" "c1" (alone sample_course) Hu Hc eq_refl)
    as [rows [w' [Hrun _]]].
  exists rows, w'. exact Hrun.
Defined.

(** X20.  The rows the content listing returns are the rows of the content table
    whose [course_id] is the requested course, all of them and no others:
    rows of other courses and rows with no course never appear, and a
    course without rows gives a success with an empty list. *)
Theorem getCourseContent_returns_only_that_course
    (userId courseId : string) (w : World) :
  userId <> "" -> courseId <> "" -> offline w = None ->
  let content := course_content (tables (yield (yield w))) in
  exists rows,
    fst (getCourseContent userId courseId w)
    = Returned (succeed (Some rows)) /\
    (forall c, In c rows <->
               In c content /\ Content.course_id c = Some courseId) /\
    ((forall c, In c content -> Content.course_id c <> Some courseId) ->
     rows = []).
Proof.
  intros Hu Hc Hon content. eexists.
  rewrite (getCourseContent_run _ _ _ Hu Hc Hon). cbn [fst]. fold content.
  split; [reflexivity|]. split.
  - intros c. rewrite filter_In.
    destruct (Content.course_id c) as [cid|].
    + rewrite String.eqb_eq. intuition congruence.
    + intuition discriminate.
  - intros Hnone. apply filter_none. intros c Hin.
    specialize (Hnone c Hin).
    destruct (Content.course_id c) as [cid|]; [|reflexivity].
    apply String.eqb_neq. congruence.
Qed.

Lemma getCourseContent_returns_only_that_course_witness :
  fst (getCourseContent "u1" "c7" (alone sample_course))
  = Returned (succeed (Some [])).
Proof.
  assert (Hu : "u1" <> "") by discriminate.
  assert (Hc : "c7" <> "") by discriminate.
  destruct (getCourseContent_returns_only_that_course
              "u1" "c7" (alone sample_course) Hu Hc eq_refl)
    as [rows [Hrun [_ Hempty]]].
  rewrite Hrun, Hempty; [reflexivity|].
  intros c Hin. cbn in Hin.
  destruct Hin as [<-|[<-|[<-|[<-|[<-|[]]]]]]; discriminate.
Defined.

(* ===================================================================== *)
(** * Credential engine: salts and stored hashes *)
(* ===================================================================== *)

Lemma hex_of_byte_inj (b1 b2 : Byte.byte) :
  hex_of_byte b1 = hex_of_byte b2 -> b1 = b2.
Proof.
  intros Heq.
  set (decode := fun s : string =>
         find (fun b => String.eqb (hex_of_byte b) s)
              (omap Byte.of_nat (seq 0 256))).
  assert (Hdecode : forall b, decode (hex_of_byte b) = Some b).
  { intros b. destruct b; vm_compute; reflexivity. }
  pose proof (Hdecode b1) as H1. rewrite Heq, Hdecode in H1.
  congruence.
Qed.

Lemma toString_hex_cons (b : Byte.byte) (rest : list Byte.byte) :
  toString_hex (b :: rest)
  = String (hex_digit (Byte.to_N b / 16))
      (String (hex_digit (Byte.to_N b mod 16)) (toString_hex rest)).
Proof. reflexivity. Qed.

Lemma toString_hex_inj (l1 l2 : list Byte.byte) :
  toString_hex l1 = toString_hex l2 -> l1 = l2.
Proof.
  revert l2. induction l1 as [|b1 r1 IH]; intros [|b2 r2] Heq.
  - reflexivity.
  - rewrite toString_hex_cons in Heq. discriminate Heq.
  - rewrite toString_hex_cons in Heq. discriminate Heq.
  - rewrite !toString_hex_cons in Heq.
    injection Heq as Hhi Hlo Hrest.
    f_equal; [|apply IH; exact Hrest].
    apply hex_of_byte_inj. unfold hex_of_byte. cbv zeta.
    rewrite Hhi, Hlo. reflexivity.
Qed.

Section SaltFacts.

Variable pbkdf2 : string -> string -> N -> N -> string -> list Byte.byte.

(** X21.  Two successive [createPasswordHash] calls each consume sixteen bytes of
    the random source, the second the sixteen after the first's, and touch
    no table; the two salts are equal exactly when those two runs of bytes
    are equal byte for byte. *)
Theorem createPasswordHash_salts_follow_random_bytes
    (password1 password2 : string) (w : World) :
  exists h1 w1 h2 w2,
    createPasswordHash pbkdf2 password1 w = (Returned h1, w1) /\
    createPasswordHash pbkdf2 password2 w1 = (Returned h2, w2) /\
    drawn (rng w2) = drawn (rng w) + 32 /\
    tables w2 = tables w /\
    (salt h1 = salt h2 <->
     forall i, i < 16 ->
       entropy (rng w) (drawn (rng w) + i)
       = entropy (rng w) (drawn (rng w) + 16 + i)).
Proof.
  do 4 eexists.
  split; [apply createPasswordHash_run|].
  split; [apply createPasswordHash_run|].
  cbn [rng drawn entropy log set_rng tables salt].
  split; [lia|]. split; [reflexivity|]. split.
  - intros Hsalt i Hi. apply toString_hex_inj in Hsalt.
    apply (proj1 map_ext_in_iff Hsalt i). apply in_seq. lia.
  - intros Hbytes. f_equal. apply map_ext_in. intros i Hi.
    apply in_seq in Hi. apply Hbytes. lia.
Qed.

(** X22.  [verifyPassword] compares texts exactly.  When the primitive returns as
    many bytes as the key length asks for, a stored hash that is not 128
    characters long, or that is not lower-case hex throughout, is rejected
    for every password and salt. *)
Theorem verifyPassword_rejects_malformed_hash
    (password storedHash storedSalt : string) (w : World)
    (pbkdf2_keylen : forall p s i k d,
        length (pbkdf2 p s i k d) = N.to_nat k) :
  String.length storedHash <> 128 \/ is_hex storedHash = false ->
  fst (verifyPassword pbkdf2 password storedHash storedSalt w)
  = Returned false.
Proof.
  intros Hbad. rewrite verifyPassword_run. cbn [fst]. f_equal.
  destruct (String.eqb _ storedHash) eqn:Heq; [|reflexivity]. exfalso.
  apply String.eqb_eq in Heq. subst storedHash.
  rewrite toString_hex_length, toString_hex_is_hex, pbkdf2_keylen in Hbad.
  destruct Hbad as [Hlen|Hhex]; [apply Hlen; reflexivity | discriminate Hhex].
Qed.

(** X23.  Against the hash and salt [createPasswordHash] made for one password,
    [verifyPassword] accepts another password exactly when the primitive
    derives the same key from it under that salt. *)
Theorem verifyPassword_accepts_only_same_key (password : string) (w : World) :
  exists h w1,
    createPasswordHash pbkdf2 password w = (Returned h, w1) /\
    forall other w',
      fst (verifyPassword pbkdf2 other (hashedPassword h) (salt h) w')
      = Returned true <->
      pbkdf2 other (salt h) 100000 64 "sha512"
      = pbkdf2 password (salt h) 100000 64 "sha512".
Proof.
  do 2 eexists. split; [apply createPasswordHash_run|].
  intros other w'. rewrite verifyPassword_run.
  cbn [fst hashedPassword salt]. split.
  - intros Hyes. injection Hyes as Heq. apply String.eqb_eq in Heq.
    apply toString_hex_inj. exact Heq.
  - intros ->. rewrite String.eqb_refl. reflexivity.
Qed.

End SaltFacts.

Lemma verifyPassword_rejects_malformed_hash_witness :
  fst (verifyPassword sample_kdf "secret" "00FF" "00ff" (alone no_tables))
  = Returned false.
Proof.
  apply (verifyPassword_rejects_malformed_hash sample_kdf "secret" "00FF"
           "00ff" (alone no_tables) sample_kdf_length).
  left. discriminate.
Defined.
